(** * stores/nvidia.py: the NvidiaBuyer stock poller and cart agent

    A shallow embedding of [NvidiaBuyer] (locale resolution, catalog lookup,
    API-status bookkeeping, stock poll, session token, add-to-cart and the
    per-product [buy] worker) together with the properties of its
    specification.

    Conventions.
    - Python [str] is [string]; [dict] with string keys is [gmap string _];
      [int] is [Z].
    - A method that reads or writes [self], talks to the network or calls a
      collaborator is a computation in the monad [M]: it transforms a
      [world] (the buyer object, the environment's answers and the trace of
      observable events) and ends in a value, a raised exception or fuel
      exhaustion. State written before an exception is raised is kept, as in
      Python.
    - The HTTP session and the notification handler are collaborators
      outside the module: each call to them takes the next answer of the
      environment, which either returns or raises a [RequestException].
    - [str.lower] is modelled on ASCII text; what depends on its value is
      stated for ASCII input.
    - [buy] loops and recurses without bound; it is given fuel, one unit per
      loop iteration and per recursive call. The interpreter's recursion
      limit is not modelled.
    - One worker is followed at a time; the thread pool of [run_items] is
      not modelled. *)

From Stdlib Require Import String Ascii ZArith List Bool Lia.
From stdpp Require Import base gmap strings.
Import ListNotations.
Local Open Scope string_scope.
Set Warnings "-register-all".

(** ** Strings: [str.lower] and the [in] operator on [str] *)

Module Str.

(** [str.lower] on one character of an ASCII string: 'A'..'Z' go to
    'a'..'z', every other character stays. On text outside ASCII Python
    lowers by the Unicode tables, which are not modelled: what is proved of
    the value of [lower] is stated for ASCII input ([is_ascii]). *)
Definition lower_ascii (c : ascii) : ascii :=
  let n := N_of_ascii c in
  if ((65 <=? n) && (n <=? 90))%N then ascii_of_N (n + 32) else c.

Fixpoint lower (s : string) : string :=
  match s with
  | EmptyString => EmptyString
  | String c s' => String (lower_ascii c) (lower s')
  end.

(** The string holds ASCII characters only (code points below 128). *)
Fixpoint is_ascii (s : string) : bool :=
  match s with
  | EmptyString => true
  | String c s' => (N_of_ascii c <? 128)%N && is_ascii s'
  end.

(** [pat in s] for two [str]: [pat] occurs in [s] at some offset. *)
Fixpoint contains (pat s : string) : bool :=
  if String.prefix pat s then true
  else match s with
       | EmptyString => false
       | String _ s' => contains pat s'
       end.

(** The declarative reading of [pat in s]. *)
Definition occurs_in (pat s : string) : Prop :=
  exists pre suf : string, s = pre +:+ pat +:+ suf.

End Str.

(** ** JSON values, as [json.load] and [response.json()] produce them *)

Inductive json : Type :=
| JNull
| JBool (b : bool)
| JNum (n : Z)
| JStr (s : string)
| JArr (l : list json)
| JObj (m : gmap string json).

(** The exception classes that the code under study can meet. *)
Inductive exn : Type :=
| RequestException   (* requests.exceptions.RequestException *)
| TypeError
| KeyError
| ValueError
| OtherException.    (* any class outside the four above *)

(** A pure Python expression: a value or a raised exception. *)
Inductive res (A : Type) : Type :=
| Val (a : A)
| Exc (e : exn).
Arguments Val {A} a.
Arguments Exc {A} e.

Definition is_str (key : string) (v : json) : bool :=
  match v with
  | JStr s => String.eqb s key
  | _ => false
  end.

(** [key in v] for a string [key]: membership of a key in a dict, of an
    element in a list, of a substring in a str; other values are not
    iterable. *)
Definition py_in (key : string) (v : json) : res bool :=
  match v with
  | JObj m => Val (bool_decide (is_Some (m !! key)))
  | JArr l => Val (existsb (is_str key) l)
  | JStr s => Val (Str.contains key s)
  | JNull | JBool _ | JNum _ => Exc TypeError
  end.

(** [v[key]] for a string [key]. *)
Definition py_getitem (v : json) (key : string) : res json :=
  match v with
  | JObj m => match m !! key with
              | Some x => Val x
              | None => Exc KeyError
              end
  | JArr _ | JStr _ | JNull | JBool _ | JNum _ => Exc TypeError
  end.

(** ** Module constants *)

Definition GPU_DISPLAY_NAMES : gmap string string :=
  list_to_map
    [("2060S", "NVIDIA GEFORCE RTX 2060 SUPER");
     ("3080", "NVIDIA GEFORCE RTX 3080");
     ("3090", "NVIDIA GEFORCE RTX 3090")].

Definition CURRENCY_LOCALE_MAP : gmap string string :=
  list_to_map
    [("en_us", "USD"); ("en_gb", "GBP"); ("de_de", "EUR"); ("fr_fr", "EUR");
     ("it_it", "EUR"); ("es_es", "EUR"); ("nl_nl", "EUR"); ("sv_se", "SEK");
     ("de_at", "EUR"); ("fr_be", "EUR"); ("da_dk", "DKK"); ("cs_cz", "CZK")].

(** [CURRENCY_LOCALE_MAP.get(locale, "USD")] *)
Definition currency_of (locale : string) : string :=
  default "USD" (CURRENCY_LOCALE_MAP !! locale).

(** [CART_SUCCESS_CODES = {201, requests.codes.ok}]; declared by the module
    and read by no function of it. *)
Definition CART_SUCCESS_CODES : list Z := [201; 200]%Z.

Definition IN_STOCK_MARKER : string := "PRODUCT_INVENTORY_IN_STOCK".
Definition TOKEN_FIELD : string := "session_token".
Definition MESSAGE_FIELD : string := "message".
Definition CART_SUCCESS_WORD : string := "successfully".

Inductive API_STATUS : Type := ONLINE | OFFLINE.

Definition API_STATUS_eqb (a b : API_STATUS) : bool :=
  match a, b with
  | ONLINE, ONLINE | OFFLINE, OFFLINE => true
  | _, _ => false
  end.

(** ** The buyer object *)

(** The attributes of [NvidiaBuyer] that the methods below read or write.
    [api_online] is the attribute that [updateApiStatus] assigns; it does
    not exist before the first call, hence the [option]. *)
Record NvidiaBuyer : Type := mkBuyer {
  product_ids : list json;
  cli_locale : string;
  locale : string;
  gpu : string;
  enabled : bool;
  auto_buy_enabled : bool;
  attempt : Z;
  test : bool;
  interval : Z;
  api_status : API_STATUS;
  api_online : option API_STATUS;
  gpu_long_name : string
}.

Definition set_product_ids (ids : list json) (b : NvidiaBuyer) : NvidiaBuyer :=
  mkBuyer ids (cli_locale b) (locale b) (gpu b) (enabled b)
          (auto_buy_enabled b) (attempt b) (test b) (interval b)
          (api_status b) (api_online b) (gpu_long_name b).

Definition set_enabled (e : bool) (b : NvidiaBuyer) : NvidiaBuyer :=
  mkBuyer (product_ids b) (cli_locale b) (locale b) (gpu b) e
          (auto_buy_enabled b) (attempt b) (test b) (interval b)
          (api_status b) (api_online b) (gpu_long_name b).

Definition set_attempt (n : Z) (b : NvidiaBuyer) : NvidiaBuyer :=
  mkBuyer (product_ids b) (cli_locale b) (locale b) (gpu b) (enabled b)
          (auto_buy_enabled b) n (test b) (interval b)
          (api_status b) (api_online b) (gpu_long_name b).

Definition set_api_online (s : API_STATUS) (b : NvidiaBuyer) : NvidiaBuyer :=
  mkBuyer (product_ids b) (cli_locale b) (locale b) (gpu b) (enabled b)
          (auto_buy_enabled b) (attempt b) (test b) (interval b)
          (api_status b) (Some s) (gpu_long_name b).

(** ** Locale resolution and catalog lookup *)

(** [map_locales], as a function of [self.cli_locale]. *)
Definition map_locales (cli_locale : string) : string :=
  if String.eqb cli_locale "de_at" then "de_de"
  else if String.eqb cli_locale "fr_be" then "fr_fr"
  else if String.eqb cli_locale "da_dk" then "en_gb"
  else if String.eqb cli_locale "cs_cz" then "en_gb"
  else cli_locale.

(** The Locale Resolver as [__init__] runs it on the user's locale:
    [self.cli_locale = locale.lower(); self.locale = self.map_locales()]. *)
Definition resolve_locale (user_locale : string) : string :=
  map_locales (Str.lower user_locale).

Section Catalog.

(** [PRODUCT_IDS = json.load(open(PRODUCT_IDS_FILE))]: the data file is
    not part of the module; it is keyed by locale, then by family. *)
Variable PRODUCT_IDS : gmap string (gmap string json).

(** [PRODUCT_IDS[loc][family]] *)
Definition catalog_entry (loc family : string) : res json :=
  match PRODUCT_IDS !! loc with
  | None => Exc KeyError
  | Some families =>
      match families !! family with
      | None => Exc KeyError
      | Some entry => Val entry
      end
  end.

(** [get_product_ids]: the entry is read under [self.cli_locale] and
    [self.gpu]; a list replaces [self.product_ids], a str replaces it by
    a one-element list, anything else leaves it alone. *)
Definition get_product_ids (b : NvidiaBuyer) : res NvidiaBuyer :=
  match catalog_entry (cli_locale b) (gpu b) with
  | Exc e => Exc e
  | Val (JArr ids) => Val (set_product_ids ids b)
  | Val (JStr id) => Val (set_product_ids [JStr id] b)
  | Val _ => Val b
  end.

(** [__init__(gpu, locale, test, interval)]. The collaborators it sets up
    are outside the module and each of their calls may raise: [session] is
    the outcome of [requests.Session()] (line 71), [setup] that of
    [browser_cookie3.load], [TimeoutHTTPAdapter()], the two [mount] calls
    and [NotificationHandler()] (lines 83 to 93). The display name is
    looked up between the two, the product ids last. *)
Definition construct (session setup : res unit)
    (gpu_ user_locale : string) (test_ : bool) (interval_ : Z)
  : res NvidiaBuyer :=
  let cli := Str.lower user_locale in
  match session with
  | Exc e => Exc e
  | Val _ =>
      match GPU_DISPLAY_NAMES !! gpu_ with
      | None => Exc KeyError
      | Some long_name =>
          match setup with
          | Exc e => Exc e
          | Val _ =>
              get_product_ids
                (mkBuyer [] cli (map_locales cli) gpu_ true false 0%Z test_
                         interval_ ONLINE None long_name)
          end
      end
  end.

(** [__init__] in a run where the collaborators' calls return. *)
Definition init (gpu_ user_locale : string) (test_ : bool) (interval_ : Z)
  : res NvidiaBuyer :=
  construct (Val tt) (Val tt) gpu_ user_locale test_ interval_.

End Catalog.

(** ** The world a worker runs in *)

(** What the code reads of a [requests.Response]: the status code, the raw
    body, and what [response.json()] does: it returns [json_body], or, when
    the body is not JSON ([None]), raises an exception of class
    [json_error]. That class depends on the installed [requests]:
    [ValueError] before version 2.27, a subclass of [RequestException] from
    2.27 on; the module pins no version, so the environment chooses. *)
Record response : Type := mkResponse {
  status_code : Z;
  text : string;
  json_body : option json;
  json_error : exn
}.

(** The environment's answer to one outgoing call: it returns, or it raises
    a [RequestException] (a connection failure, a timeout, or a request
    that [requests] refuses to send). For a notification only the
    distinction between the two matters. *)
Inductive reply : Type :=
| Response (r : response)
| Fault.

Inductive request : Type :=
| GetStock (locale_ currency product_id : string)   (* NVIDIA_STOCK_API *)
| GetToken (locale_ : string)                       (* NVIDIA_TOKEN_URL *)
| PostCart (locale_ : string) (token : json) (product_id : string).
                                                    (* NVIDIA_ADD_TO_CART_API *)

Inductive notification : Type :=
| ApiBackOnline                      (* "Nvidia API appears to be back online" *)
| InStock (product_id : string)      (* "... with product ID ... in stock ..." *)
| CartError.                         (* "ERROR: Attempted to add ... check manually!" *)

(** The log calls of the module, one constructor per message. *)
Inductive log_line : Type :=
| LogStockCheckStart (product_id : string) (interval_ : Z)
| LogBuyStart (status : API_STATUS)
| LogApiBackUp
| LogAddedToCart
| LogConnectionError
| LogUnexpectedReply
| LogStockStatus (code : Z)
| LogBody (body : string)
| LogCartFailed (code : Z)
| LogToken (token : json)
| LogTokenError
| LogTokenStatus (code : Z)
| LogException.

Inductive event : Type :=
| Log (l : log_line)
| Notify (n : notification)
| Http (r : request)
| PrintOut (v : json)
| Spin (attempt_ : Z)
| Sleep (seconds : Z)
| OpenBrowser.

(** [trace] holds the events so far, the most recent first. [env] answers
    the outgoing calls in the order they are made; [tick] counts them. *)
Record world : Type := mkWorld {
  self : NvidiaBuyer;
  env : nat -> reply;
  tick : nat;
  trace : list event
}.

Inductive outcome (A : Type) : Type :=
| Ok (a : A)
| Raise (e : exn)
| OutOfFuel.
Arguments Ok {A} a.
Arguments Raise {A} e.
Arguments OutOfFuel {A}.

Definition M (A : Type) : Type := world -> outcome A * world.

#[global] Instance M_ret : MRet M := fun A a w => (Ok a, w).

#[global] Instance M_bind : MBind M := fun A B k c w =>
  match c w with
  | (Ok a, w') => k a w'
  | (Raise e, w') => (Raise e, w')
  | (OutOfFuel, w') => (OutOfFuel, w')
  end.

Definition raise {A} (e : exn) : M A := fun w => (Raise e, w).

Definition out_of_fuel {A} : M A := fun w => (OutOfFuel, w).

(** [try: body except requests.exceptions.RequestException: handler] *)
Definition try_except {A} (body handler : M A) : M A := fun w =>
  match body w with
  | (Raise RequestException, w') => handler w'
  | other => other
  end.

Definition lift {A} (r : res A) : M A :=
  match r with
  | Val a => mret a
  | Exc e => raise e
  end.

Definition get_self : M NvidiaBuyer := fun w => (Ok (self w), w).

Definition modify_self (f : NvidiaBuyer -> NvidiaBuyer) : M unit := fun w =>
  (Ok tt, mkWorld (f (self w)) (env w) (tick w) (trace w)).

Definition emit (e : event) : M unit := fun w =>
  (Ok tt, mkWorld (self w) (env w) (tick w) (e :: trace w)).

Definition log (l : log_line) : M unit := emit (Log l).

(** One outgoing call: record [e], take the environment's next answer. *)
Definition call_out (e : event) : M response := fun w =>
  let w' := mkWorld (self w) (env w) (S (tick w)) (e :: trace w) in
  match env w (tick w) with
  | Response r => (Ok r, w')
  | Fault => (Raise RequestException, w')
  end.

(** [self.session.get(...)] and [self.session.post(...)] *)
Definition session_send (r : request) : M response := call_out (Http r).

(** [self.notification_handler.send_notification(...)]: the handler is not
    part of the module, so whether the call returns or raises is the
    environment's choice. *)
Definition send_notification (n : notification) : M unit :=
  _ ← call_out (Notify n); mret tt.

(** [response.json()] *)
Definition response_json (r : response) : M json :=
  match json_body r with
  | Some j => mret j
  | None => raise (json_error r)
  end.

(** ** The methods *)

(** [updateApiStatus]: the flip test reads [self.api_status]; the
    assignment goes to [self.api_online]. *)
Definition updateApiStatus (status : API_STATUS) : M unit :=
  b ← get_self;
  (if API_STATUS_eqb (api_status b) OFFLINE && API_STATUS_eqb status ONLINE
   then log LogApiBackUp;; send_notification ApiBackOnline
   else mret tt);;
  modify_self (set_api_online status).

Definition is_in_stock (product_id : string) : M bool :=
  try_except
    (b ← get_self;
     r ← session_send
           (GetStock (locale b) (currency_of (locale b)) product_id);
     log (LogStockStatus (status_code r));;
     (if negb (status_code r =? 200)%Z then log (LogBody (text r))
      else mret tt);;
     if Str.contains IN_STOCK_MARKER (text r) then mret true else mret false)
    (log LogUnexpectedReply;; mret false).

(** What [get_session_token] hands back: a 2-tuple, the bare [False] of its
    [except] clause, or the [None] of falling off the end. *)
Inductive token_result : Type :=
| TokPair (success : bool) (token : json)
| TokFalse
| TokNone.

(** The cookie header is rebuilt from the session's cookie jar, which
    belongs to the environment; the request is recorded by its locale. *)
Definition get_session_token : M token_result :=
  b ← get_self;
  try_except
    (r ← session_send (GetToken (locale b));
     if (status_code r =? 200)%Z then
       j ← response_json r;
       present ← lift (py_in TOKEN_FIELD j);
       if negb present then
         log LogTokenError;; mret (TokPair false (JStr ""))
       else
         tok ← lift (py_getitem j TOKEN_FIELD);
         mret (TokPair true tok)
     else
       log (LogTokenStatus (status_code r));; mret TokNone)
    (log LogUnexpectedReply;; mret TokFalse).

(** [success, token = ...]: unpacking anything but a 2-tuple is a
    [TypeError]. *)
Definition unpack2 (t : token_result) : M (bool * json) :=
  match t with
  | TokPair s tok => mret (s, tok)
  | TokFalse | TokNone => raise TypeError
  end.

Definition add_to_cart (product_id : string) : M bool :=
  try_except
    (t ← get_session_token;
     st ← unpack2 t;
     if negb (fst st) then mret false
     else
       log (LogToken (snd st));;
       b ← get_self;
       r ← session_send (PostCart (locale b) (snd st) product_id);
       if (status_code r =? 200)%Z then
         j ← response_json r;
         emit (PrintOut j);;
         msg ← lift (py_getitem j MESSAGE_FIELD);
         ok ← lift (py_in CART_SUCCESS_WORD msg);
         if (ok : bool) then mret true else mret false
       else
         log (LogBody (text r));;
         log (LogCartFailed (status_code r));;
         mret false)
    (log LogException;; log LogUnexpectedReply;; mret false).

(** [sleep(seconds)]: [time.sleep] raises [ValueError] for a negative
    length. *)
Definition sleep (seconds : Z) : M unit :=
  if (seconds <? 0)%Z then raise ValueError else emit (Sleep seconds).

(** The loop [while not self.is_in_stock(product_id): ...] of [buy]. *)
Fixpoint poll_until_in_stock (fuel : nat) (product_id : string) : M unit :=
  match fuel with
  | O => out_of_fuel
  | S fuel' =>
      in_stock ← is_in_stock product_id;
      if (in_stock : bool) then mret tt
      else
        updateApiStatus ONLINE;;
        modify_self (fun b => set_attempt (attempt b + 1) b);;
        b ← get_self;
        emit (Spin (attempt b));;
        sleep (interval b);;
        poll_until_in_stock fuel' product_id
  end.

Fixpoint buy (fuel : nat) (product_id : string) : M unit :=
  match fuel with
  | O => out_of_fuel
  | S fuel' =>
      try_except
        (b ← get_self;
         log (LogStockCheckStart product_id (interval b));;
         log (LogBuyStart (api_status b));;
         poll_until_in_stock fuel' product_id;;
         updateApiStatus ONLINE;;
         b ← get_self;
         if enabled b then
           cart_success ← add_to_cart product_id;
           if (cart_success : bool) then
             log LogAddedToCart;;
             modify_self (set_enabled false);;
             emit OpenBrowser;;
             send_notification (InStock product_id)
           else
             send_notification CartError;;
             buy fuel' product_id
         else mret tt)
        (log LogConnectionError;;
         log LogUnexpectedReply;;
         updateApiStatus OFFLINE;;
         buy fuel' product_id)
  end.

(** What the specification says of the resolver: a table of four remapped
    codes, every other code passing through. *)
Definition spec_remap_table : gmap string string :=
  list_to_map
    [("de_at", "de_de"); ("fr_be", "fr_fr"); ("da_dk", "en_gb");
     ("cs_cz", "en_gb")].

Definition spec_resolve_locale (user_locale : string) : string :=
  default (Str.lower user_locale) (spec_remap_table !! Str.lower user_locale).

(** ** Phases of [buy] and what a run shows *)

(** The phases of the [try:] block of [buy]: lines 144 to 155 (CHECKING),
    and the [if self.enabled:] statement (RESERVING). *)
Definition checking (fuel : nat) (product_id : string) : M unit :=
  b ← get_self;
  log (LogStockCheckStart product_id (interval b));;
  log (LogBuyStart (api_status b));;
  poll_until_in_stock fuel product_id;;
  updateApiStatus ONLINE.

Definition reserving (fuel : nat) (product_id : string) : M unit :=
  b ← get_self;
  if enabled b then
    cart_success ← add_to_cart product_id;
    if (cart_success : bool) then
      log LogAddedToCart;;
      modify_self (set_enabled false);;
      emit OpenBrowser;;
      send_notification (InStock product_id)
    else
      send_notification CartError;;
      buy fuel product_id
  else mret tt.

(** The [try:] block of [buy] as a whole, and its [except] clause. *)
Definition buy_try (fuel : nat) (product_id : string) : M unit :=
  b ← get_self;
  log (LogStockCheckStart product_id (interval b));;
  log (LogBuyStart (api_status b));;
  poll_until_in_stock fuel product_id;;
  updateApiStatus ONLINE;;
  reserving fuel product_id.

Definition buy_except (fuel : nat) (product_id : string) : M unit :=
  log LogConnectionError;;
  log LogUnexpectedReply;;
  updateApiStatus OFFLINE;;
  buy fuel product_id.

(** The first events of every [buy] cycle started on buyer [b], most
    recent first: the two log lines, then the stock request. *)
Definition cycle_start (b : NvidiaBuyer) (product_id : string) : list event :=
  [Http (GetStock (locale b) (currency_of (locale b)) product_id);
   Log (LogBuyStart (api_status b));
   Log (LogStockCheckStart product_id (interval b))].

(** [c] only adds events to the trace and never lowers the attempt
    count. *)
Definition grows {A} (c : M A) : Prop :=
  forall w,
    (exists evs, trace (snd (c w)) = (evs ++ trace w)%list) /\
    (attempt (self w) <= attempt (self (snd (c w))))%Z.

(** Run from [w], [c] ends with a trace that extends [base]. *)
Definition reaches {A} (c : M A) (w : world) (base : list event) : Prop :=
  exists evs, trace (snd (c w)) = (evs ++ base)%list.

(** No [RequestException] leaves [c]. *)
Definition contained {A} (c : M A) : Prop :=
  forall w, fst (c w) <> Raise RequestException.

(** The events of one stock poll that got an answer, most recent first. *)
Definition stock_poll_events (b : NvidiaBuyer) (product_id : string)
    (r : response) : list event :=
  ((if negb (status_code r =? 200)%Z then [Log (LogBody (text r))] else [])
   ++ [Log (LogStockStatus (status_code r));
       Http (GetStock (locale b) (currency_of (locale b)) product_id)])%list.

(** The world after one outgoing call. *)
Definition called (evs : list event) (w : world) : world :=
  mkWorld (self w) (env w) (S (tick w)) (evs ++ trace w)%list.

(** ** Concrete data for runs *)

(** A catalog with different ids for Austria and for Germany. *)
Definition example_catalog : gmap string (gmap string json) :=
  list_to_map
    [("de_de", list_to_map [("3080", JArr [JStr "DE-3080"])]);
     ("de_at", list_to_map [("3080", JArr [JStr "AT-3080"]);
                            ("3090", JStr "AT-3090")])].

Module Run.

(** The buyer that [init example_catalog "3080" "de_at" false 5]
    returns. *)
Definition buyer : NvidiaBuyer :=
  mkBuyer [JStr "AT-3080"] "de_at" "de_de" "3080" true false 0 false 5
          ONLINE None "NVIDIA GEFORCE RTX 3080".

(** An environment that gives the listed answers, in order, and raises
    ever after. *)
Definition answers (l : list reply) : nat -> reply :=
  fun n => nth n l Fault.

Definition start (b : NvidiaBuyer) (l : list reply) : world :=
  mkWorld b (answers l) 0 [].

(** The events of a finished run, the earliest first. *)
Definition history {A} (x : outcome A * world) : list event :=
  rev (trace (snd x)).

(** Responses. Where the code reads only the parsed body, the raw text
    is left empty; [json_error] is read only where the body is not JSON and
    [response.json()] is called, which is the case in none of them. *)
Definition stock_hit : response :=
  mkResponse 200 "status: PRODUCT_INVENTORY_IN_STOCK" None ValueError.
Definition stock_miss : response :=
  mkResponse 200 "status: PRODUCT_INVENTORY_OUT_OF_STOCK" None ValueError.
Definition stock_hit_503 : response :=
  mkResponse 503 "PRODUCT_INVENTORY_IN_STOCK" None ValueError.
Definition token_200 : response :=
  mkResponse 200 "" (Some (JObj {[ "session_token" := JStr "tok" ]}))
             ValueError.
Definition token_503 : response :=
  mkResponse 503 "Service Unavailable" None ValueError.
Definition added : json := JObj {[ "message" := JStr "Added successfully" ]}.
Definition refused : json := JObj {[ "message" := JStr "Sold out" ]}.
Definition cart_200 : response :=
  mkResponse 200 "" (Some added) ValueError.
Definition cart_201 : response :=
  mkResponse 201 "" (Some added) ValueError.
Definition cart_200_refused : response :=
  mkResponse 200 "" (Some refused) ValueError.
Definition cart_503 : response :=
  mkResponse 503 "Service Unavailable" None ValueError.

(** A notification that went through. *)
Definition delivered : reply :=
  Response (mkResponse 200 "" None ValueError).

End Run.

Import Run.

(** ** Further observables *)

(** The product ids that [get_product_ids] draws from a catalog entry,
    [old] being the ids held before. *)
Definition entry_ids (entry : json) (old : list json) : list json :=
  match entry with
  | JArr ids => ids
  | JStr id => [JStr id]
  | _ => old
  end.

(** The four codes that [map_locales] replaces. *)
Definition remapped_codes : list string :=
  ["de_at"; "fr_be"; "da_dk"; "cs_cz"].

(** A stock poll that gets this answer reports no stock. *)
Definition miss (answer : reply) : bool :=
  match answer with
  | Fault => true
  | Response r => negb (Str.contains IN_STOCK_MARKER (text r))
  end.

(** How often the trace shows the worker asleep. *)
Definition sleeps (evs : list event) : nat :=
  length (List.filter (fun e => match e with Sleep _ => true | _ => false end)
                      evs).

(** The failure notifications of a trace. *)
Definition cart_errors (evs : list event) : nat :=
  length (List.filter (fun e => match e with
                           | Notify CartError => true
                           | _ => false
                           end) evs).

(** The events that only a purchase attempt produces: the token and cart
    requests, the printed cart answer, the browser and the two purchase
    notifications. *)
Definition purchase_event (e : event) : bool :=
  match e with
  | Http (GetToken _) | Http (PostCart _ _ _) => true
  | Notify (InStock _) | Notify CartError => true
  | PrintOut _ | OpenBrowser => true
  | _ => false
  end.

(** The attributes that no method below assigns after [__init__]. *)
Definition static (b : NvidiaBuyer)
  : list json * string * string * string * bool * bool * Z * API_STATUS
    * string :=
  (product_ids b, cli_locale b, locale b, gpu b, auto_buy_enabled b, test b,
   interval b, api_status b, gpu_long_name b).

(** Started where [I] holds of the buyer, [c] ends where it holds again,
    and every event it adds satisfies [P]. *)
Definition keeps (I : NvidiaBuyer -> Prop) (P : event -> Prop) {A} (c : M A)
  : Prop :=
  forall w,
    I (self w) ->
    I (self (snd (c w))) /\
    exists evs, trace (snd (c w)) = (evs ++ trace w)%list /\ Forall P evs.

(** The events of one stock poll, whatever the answer, most recent
    first. *)
Definition poll_events (b : NvidiaBuyer) (product_id : string)
    (answer : reply) : list event :=
  match answer with
  | Response r => stock_poll_events b product_id r
  | Fault =>
      [Log LogUnexpectedReply;
       Http (GetStock (locale b) (currency_of (locale b)) product_id)]
  end.


(** The world after a CHECKING phase whose first poll found stock, for a
    buyer whose [api_status] is ONLINE. *)
Definition after_check (product_id : string) (w : world) : world :=
  mkWorld (set_api_online ONLINE (self w)) (env w) (S (tick w))
          (poll_events (self w) product_id (env w (tick w))
           ++ Log (LogBuyStart (api_status (self w)))
           :: Log (LogStockCheckStart product_id (interval (self w)))
           :: trace w)%list.

(** The world after a session token request that returned [tok] and a
    cart POST whose answer left the events [evs]. *)
Definition after_post (product_id : string) (tok : json) (evs : list event)
    (w : world) : world :=
  called (evs ++ [Http (PostCart (locale (self w)) tok product_id);
                  Log (LogToken tok)])%list
         (called [Http (GetToken (locale (self w)))] w).

(** The token endpoint answers with HTTP 200 and a JSON object that holds
    the token [tok]. *)
Definition grants_token (answer : reply) (tok : json) : Prop :=
  exists r m,
    answer = Response r /\ status_code r = 200%Z /\
    json_body r = Some (JObj m) /\ m !! TOKEN_FIELD = Some tok.

(** The cart endpoint answers with a status other than 200. *)
Definition rejects_cart (answer : reply) (r : response) : Prop :=
  answer = Response r /\ status_code r <> 200%Z.

(** The cart endpoint answers with HTTP 200 and a JSON body [j] whose
    message holds the success word. *)
Definition accepts_cart (answer : reply) (j : json) : Prop :=
  exists r msg,
    answer = Response r /\ status_code r = 200%Z /\ json_body r = Some j /\
    py_getitem j MESSAGE_FIELD = Val msg /\
    py_in CART_SUCCESS_WORD msg = Val true.

(** From [w] on, every cycle of a worker finds stock, gets a token, has
    its cart POST rejected and its failure notification delivered. *)
Definition cart_keeps_failing (w : world) : Prop :=
  forall k : nat,
    miss (env w (tick w + 4 * k)) = false /\
    (exists tok, grants_token (env w (tick w + 4 * k + 1)) tok) /\
    (exists r, rejects_cart (env w (tick w + 4 * k + 2)) r) /\
    (exists r, env w (tick w + 4 * k + 3) = Response r).

(** * Properties *)

(** ** Strings *)

Section StringFacts.

Lemma prefix_app (p s : string) :
  String.prefix p s = true <-> exists suf, s = p +:+ suf.
Proof.
  revert s. induction p as [|a p IH]; intros s; destruct s as [|b s]; simpl.
  - split; [intros _; exists ""; reflexivity | intros _; reflexivity].
  - split; [intros _; exists (String b s); reflexivity | intros _; reflexivity].
  - split; [discriminate | intros [suf H]; discriminate].
  - destruct (ascii_dec a b) as [->|Hne].
    + rewrite IH. split; intros [suf H]; exists suf.
      * now rewrite H.
      * now inversion H.
    + split; [discriminate | intros [suf H]; inversion H; congruence].
Qed.

Lemma contains_of_prefix (p s : string) :
  String.prefix p s = true -> Str.contains p s = true.
Proof. intros H. destruct s; cbn [Str.contains]; now rewrite H. Qed.

Lemma contains_tail (p : string) (c : ascii) (s : string) :
  Str.contains p s = true -> Str.contains p (String c s) = true.
Proof.
  intros H. cbn [Str.contains].
  destruct (String.prefix p (String c s)); [reflexivity | exact H].
Qed.

Lemma contains_occurs (p s : string) :
  Str.contains p s = true <-> Str.occurs_in p s.
Proof.
  unfold Str.occurs_in. split.
  - induction s as [|c s IH]; cbn [Str.contains].
    + destruct (String.prefix p "") eqn:Hp; [|discriminate].
      intros _. apply prefix_app in Hp as [suf Hs].
      exists "", suf. exact Hs.
    + destruct (String.prefix p (String c s)) eqn:Hp.
      * intros _. apply prefix_app in Hp as [suf Hs].
        exists "", suf. exact Hs.
      * intros H. destruct (IH H) as (pre & suf & Hs).
        exists (String c pre), suf. simpl. now rewrite Hs.
  - intros (pre & suf & Hs). revert s Hs.
    induction pre as [|c pre IH]; intros s Hs.
    + apply contains_of_prefix, prefix_app. exists suf. exact Hs.
    + subst s. simpl String.append. apply contains_tail.
      apply IH. reflexivity.
Qed.

Lemma lower_ascii_idem (c : ascii) :
  Str.lower_ascii (Str.lower_ascii c) = Str.lower_ascii c.
Proof. destruct c as [[] [] [] [] [] [] [] []]; reflexivity. Qed.

Lemma lower_idem (s : string) : Str.lower (Str.lower s) = Str.lower s.
Proof.
  induction s as [|c s IH]; simpl; [reflexivity|].
  now rewrite lower_ascii_idem, IH.
Qed.

End StringFacts.

(** ** Locale resolution *)

(** The four comparisons of [map_locales], decided one after the other. *)
Ltac locale_cases c :=
  unfold map_locales;
  destruct (String.eqb_spec c "de_at") as [->|?]; [|
  destruct (String.eqb_spec c "fr_be") as [->|?]; [|
  destruct (String.eqb_spec c "da_dk") as [->|?]; [|
  destruct (String.eqb_spec c "cs_cz") as [->|?]]]].

Lemma map_locales_table (c : string) :
  map_locales c = default c (spec_remap_table !! c).
Proof.
  locale_cases c; try reflexivity.
  unfold spec_remap_table. simpl.
  rewrite !lookup_insert_ne by congruence.
  now rewrite lookup_empty.
Qed.

(** C9. The resolver returns the documented target for each of the four
    remapped codes (de_at to de_de, fr_be to fr_fr, da_dk and cs_cz to
    en_gb), in whatever case they are written, and the lowercased input for
    every other input; it is a total function, with no error path.
    Whatever string [locale.lower()] produced, [map_locales] returns its
    target if it is one of the four codes and the string itself otherwise;
    what the lowercased input is, is stated for ASCII input. *)
Theorem resolve_locale_remap_table :
  (resolve_locale "de_at" = "de_de" /\
   resolve_locale "fr_be" = "fr_fr" /\
   resolve_locale "da_dk" = "en_gb" /\
   resolve_locale "cs_cz" = "en_gb") /\
  (resolve_locale "DE_AT" = "de_de" /\
   resolve_locale "Fr_Be" = "fr_fr" /\
   resolve_locale "da_DK" = "en_gb" /\
   resolve_locale "CS_cz" = "en_gb" /\
   resolve_locale "EN_US" = "en_us" /\
   resolve_locale "sv_SE" = "sv_se") /\
  Str.lower "ABCDEFGHIJKLMNOPQRSTUVWXYZ_abcxyz-0189"
  = "abcdefghijklmnopqrstuvwxyz_abcxyz-0189" /\
  (forall c : string, map_locales c = default c (spec_remap_table !! c)) /\
  (forall s : string,
      Str.is_ascii s = true -> resolve_locale s = spec_resolve_locale s) /\
  (forall s : string,
      Str.is_ascii s = true ->
      spec_remap_table !! Str.lower s = None ->
      resolve_locale s = Str.lower s).
Proof.
  split; [repeat split; reflexivity|].
  split; [repeat split; reflexivity|].
  split; [reflexivity|].
  split; [exact map_locales_table|].
  split.
  - intros s _. apply map_locales_table.
  - intros s _ H. unfold resolve_locale.
    now rewrite map_locales_table, H.
Qed.

Lemma resolve_locale_remap_table_witness :
  Str.is_ascii "EN_US" = true /\
  spec_remap_table !! Str.lower "EN_US" = None /\
  resolve_locale "EN_US" = Str.lower "EN_US".
Proof.
  split; [reflexivity|]. split; [reflexivity|].
  apply (proj2 (proj2 (proj2 (proj2 (proj2 resolve_locale_remap_table))))).
  - reflexivity.
  - reflexivity.
Defined.

(** C10. Locale resolution is idempotent: every value [map_locales] can
    return is a fixed point of it, and resolving a resolved locale again
    (lowercasing included) changes nothing. *)
Theorem map_locales_idempotent :
  (forall c : string, map_locales (map_locales c) = map_locales c) /\
  (forall s : string, resolve_locale (resolve_locale s) = resolve_locale s).
Proof.
  assert (Hfix : forall c, map_locales (map_locales c) = map_locales c).
  { intros c. locale_cases c; try reflexivity.
    unfold map_locales.
    repeat match goal with
           | H : c <> _ |- _ => apply String.eqb_neq in H; rewrite H; clear H
           end.
    reflexivity. }
  split; [exact Hfix|].
  intros s. unfold resolve_locale.
  assert (Hlow : Str.lower (map_locales (Str.lower s))
                 = map_locales (Str.lower s)).
  { pose proof (lower_idem s) as Hs. revert Hs.
    generalize (Str.lower s) as c. intros c Hc.
    locale_cases c; try reflexivity. exact Hc. }
  rewrite Hlow. apply Hfix.
Qed.

(** ** Catalog lookup *)

(** C5, as stated, fails: for CLI locale "de_at" the locale resolves to
    "de_de", yet the ids are the ones stored under "de_at"/"3080", not the
    list stored under "de_de"/"3080". *)
Lemma get_product_ids_not_under_canonical_locale :
  exists b : NvidiaBuyer,
    init example_catalog "3080" "de_at" false 5 = Val b /\
    locale b = "de_de" /\
    catalog_entry example_catalog (locale b) (gpu b)
      = Val (JArr [JStr "DE-3080"]) /\
    product_ids b = [JStr "AT-3080"] /\
    product_ids b <> [JStr "DE-3080"].
Proof.
  eexists. split; [vm_compute; reflexivity|].
  repeat split; try reflexivity. discriminate.
Qed.

(** C5, amended. Product-id resolution looks the catalog up under the
    lowercased CLI locale, not under the remapped one: a list entry
    becomes the product ids unchanged, a single-string entry a one-element
    list; for CLI locale "de_at" and family "3080" the locale resolves to
    "de_de" with currency "EUR" and the ids are those stored under
    "de_at"/"3080". *)
Theorem get_product_ids_under_cli_locale
    (PRODUCT_IDS : gmap string (gmap string json)) :
  (forall (b : NvidiaBuyer) (ids : list json),
      catalog_entry PRODUCT_IDS (cli_locale b) (gpu b) = Val (JArr ids) ->
      get_product_ids PRODUCT_IDS b = Val (set_product_ids ids b)) /\
  (forall (b : NvidiaBuyer) (id : string),
      catalog_entry PRODUCT_IDS (cli_locale b) (gpu b) = Val (JStr id) ->
      get_product_ids PRODUCT_IDS b = Val (set_product_ids [JStr id] b)) /\
  (forall (ids : list json) (test_ : bool) (interval_ : Z),
      catalog_entry PRODUCT_IDS "de_at" "3080" = Val (JArr ids) ->
      exists b : NvidiaBuyer,
        init PRODUCT_IDS "3080" "de_at" test_ interval_ = Val b /\
        cli_locale b = "de_at" /\
        locale b = "de_de" /\
        currency_of (locale b) = "EUR" /\
        product_ids b = ids).
Proof.
  split; [|split].
  - intros b ids H. unfold get_product_ids. now rewrite H.
  - intros b id H. unfold get_product_ids. now rewrite H.
  - intros ids t i H. eexists. split.
    + unfold init, construct. change (Str.lower "de_at") with "de_at".
      change (GPU_DISPLAY_NAMES !! "3080")
        with (Some "NVIDIA GEFORCE RTX 3080").
      cbv beta iota. unfold get_product_ids. cbn [cli_locale gpu].
      rewrite H. reflexivity.
    + repeat split; reflexivity.
Qed.

Lemma get_product_ids_under_cli_locale_witness :
  catalog_entry example_catalog "de_at" "3080" = Val (JArr [JStr "AT-3080"]) /\
  exists b : NvidiaBuyer,
    init example_catalog "3080" "de_at" false 5 = Val b /\
    cli_locale b = "de_at" /\
    locale b = "de_de" /\
    currency_of (locale b) = "EUR" /\
    product_ids b = [JStr "AT-3080"].
Proof.
  split; [reflexivity|].
  apply (proj2 (proj2 (get_product_ids_under_cli_locale example_catalog))).
  reflexivity.
Defined.

(** ** The monad *)

Ltac run_monad :=
  unfold try_except, send_notification, session_send, call_out, log, emit,
    modify_self, get_self, response_json, lift, raise, out_of_fuel,
    mbind, M_bind, mret, M_ret in *;
  cbn [fst snd self env tick trace] in *.

Section MonadFacts.
Context {A B : Type}.

Lemma bind_ok (c : M A) (k : A -> M B) w a w' :
  c w = (Ok a, w') -> (c ≫= k) w = k a w'.
Proof. intros H. unfold mbind, M_bind. now rewrite H. Qed.

Lemma bind_raise (c : M A) (k : A -> M B) w e w' :
  c w = (Raise e, w') -> (c ≫= k) w = (Raise e, w').
Proof. intros H. unfold mbind, M_bind. now rewrite H. Qed.

Lemma try_caught (body handler : M A) w w' :
  body w = (Raise RequestException, w') ->
  try_except body handler w = handler w'.
Proof. intros H. unfold try_except. now rewrite H. Qed.

Lemma try_passed (body handler : M A) w :
  fst (body w) <> Raise RequestException ->
  try_except body handler w = body w.
Proof.
  intros H. unfold try_except.
  destruct (body w) as [[a|[]|] w']; try reflexivity.
  now elim H.
Qed.

Lemma grows_bind (c : M A) (k : A -> M B) :
  grows c -> (forall a, grows (k a)) -> grows (c ≫= k).
Proof.
  intros Hc Hk w. unfold mbind, M_bind.
  destruct (Hc w) as [[evs Hevs] Hatt].
  destruct (c w) as [[a|e|] w']; cbn [snd] in *.
  - destruct (Hk a w') as [[evs' Hevs'] Hatt']. split; [|lia].
    exists (evs' ++ evs)%list. now rewrite Hevs', Hevs, app_assoc.
  - split; [now exists evs | exact Hatt].
  - split; [now exists evs | exact Hatt].
Qed.

Lemma grows_try (body handler : M A) :
  grows body -> grows handler -> grows (try_except body handler).
Proof.
  intros Hb Hh w. unfold try_except.
  destruct (Hb w) as [[evs Hevs] Hatt].
  destruct (body w) as [[a|[]|] w']; cbn [snd] in *;
    try (split; [now exists evs | exact Hatt]).
  destruct (Hh w') as [[evs' Hevs'] Hatt']. split; [|lia].
  exists (evs' ++ evs)%list. now rewrite Hevs', Hevs, app_assoc.
Qed.

Lemma contained_try (body handler : M A) :
  contained handler -> contained (try_except body handler).
Proof.
  intros Hh w. unfold try_except.
  destruct (body w) as [[a|[]|] w']; cbn [fst]; try discriminate.
  apply Hh.
Qed.

Lemma contained_bind (c : M A) (k : A -> M B) :
  contained c -> (forall a, contained (k a)) -> contained (c ≫= k).
Proof.
  intros Hc Hk w. unfold mbind, M_bind.
  specialize (Hc w).
  destruct (c w) as [[a|e|] w']; cbn [fst] in *.
  - apply Hk.
  - intros He. apply Hc. now inversion He.
  - discriminate.
Qed.

Lemma reaches_of_grows (c : M A) w evs base :
  grows c -> trace w = (evs ++ base)%list -> reaches c w base.
Proof.
  intros Hc Hw. destruct (Hc w) as [[evs' Hevs'] _].
  exists (evs' ++ evs)%list. now rewrite Hevs', Hw, app_assoc.
Qed.

Lemma reaches_try_bind (c : M A) (k : A -> M B) (h : M B) w a w' base :
  c w = (Ok a, w') ->
  reaches (try_except (k a) h) w' base ->
  reaches (try_except (c ≫= k) h) w base.
Proof.
  intros Hc [evs H]. exists evs. rewrite <- H.
  unfold try_except. now rewrite (bind_ok _ _ _ _ _ Hc).
Qed.

End MonadFacts.

Lemma reaches_try_bind_bind {A B C} (c : M A) (k : A -> M B) (k' : B -> M C)
    (h : M C) w a w' base :
  c w = (Ok a, w') ->
  reaches (try_except (k a ≫= k') h) w' base ->
  reaches (try_except ((c ≫= k) ≫= k') h) w base.
Proof.
  intros Hc [evs H]. exists evs. rewrite <- H.
  unfold try_except, mbind, M_bind. now rewrite Hc.
Qed.

Section PrimitiveFacts.

Lemma grows_ret {A} (a : A) : grows (mret a).
Proof. intros w. split; [now exists [] | reflexivity]. Qed.

Lemma grows_raise {A} (e : exn) : grows (@raise A e).
Proof. intros w. split; [now exists [] | reflexivity]. Qed.

Lemma grows_out_of_fuel {A} : grows (@out_of_fuel A).
Proof. intros w. split; [now exists [] | reflexivity]. Qed.

Lemma grows_get_self : grows get_self.
Proof. intros w. split; [now exists [] | reflexivity]. Qed.

Lemma grows_modify_self f :
  (forall b, attempt b <= attempt (f b))%Z -> grows (modify_self f).
Proof. intros Hf w. split; [now exists [] | apply Hf]. Qed.

Lemma grows_emit e : grows (emit e).
Proof. intros w. split; [now exists [e] | reflexivity]. Qed.

Lemma grows_log l : grows (log l).
Proof. apply grows_emit. Qed.

Lemma grows_call_out e : grows (call_out e).
Proof.
  intros w. unfold call_out.
  destruct (env w (tick w)); (split; [now exists [e] | reflexivity]).
Qed.

Lemma grows_lift {A} (r : res A) : grows (lift r).
Proof. destruct r; [apply grows_ret | apply grows_raise]. Qed.

Lemma grows_response_json r : grows (response_json r).
Proof.
  unfold response_json.
  destruct (json_body r); [apply grows_ret | apply grows_raise].
Qed.

Lemma grows_unpack2 t : grows (unpack2 t).
Proof. destruct t; [apply grows_ret | apply grows_raise ..]. Qed.

Lemma grows_set_api_online s : grows (modify_self (set_api_online s)).
Proof. apply grows_modify_self. intros b. reflexivity. Qed.

Lemma grows_set_enabled e : grows (modify_self (set_enabled e)).
Proof. apply grows_modify_self. intros b. reflexivity. Qed.

Lemma grows_next_attempt :
  grows (modify_self (fun b => set_attempt (attempt b + 1) b)).
Proof. apply grows_modify_self. intros b. cbn. lia. Qed.

Lemma grows_sleep seconds : grows (sleep seconds).
Proof.
  unfold sleep.
  destruct (seconds <? 0)%Z; [apply grows_raise | apply grows_emit].
Qed.

End PrimitiveFacts.

Create HintDb grows.

#[local] Hint Resolve grows_ret grows_raise grows_out_of_fuel grows_get_self
  grows_set_api_online grows_set_enabled grows_next_attempt grows_emit
  grows_log grows_call_out grows_lift grows_response_json grows_unpack2
  grows_sleep : grows.

(** Walk through a computation, one combinator at a time. *)
Ltac grows_step :=
  match goal with
  | |- grows (mbind _ _) => apply grows_bind; [|intros ?]
  | |- grows (try_except _ _) => apply grows_try
  | |- grows (if ?b then _ else _) => destruct b
  | |- grows (send_notification _) => unfold send_notification
  | |- grows (session_send _) => unfold session_send
  | |- grows _ => solve [auto with grows]
  end.

Lemma grows_updateApiStatus status : grows (updateApiStatus status).
Proof. unfold updateApiStatus. repeat grows_step. Qed.

Lemma grows_is_in_stock product_id : grows (is_in_stock product_id).
Proof. unfold is_in_stock. repeat grows_step. Qed.

Lemma grows_get_session_token : grows get_session_token.
Proof. unfold get_session_token. repeat grows_step. Qed.

Lemma grows_add_to_cart product_id : grows (add_to_cart product_id).
Proof.
  pose proof grows_get_session_token.
  unfold add_to_cart. repeat grows_step.
Qed.

#[local] Hint Resolve grows_updateApiStatus grows_is_in_stock
  grows_get_session_token grows_add_to_cart : grows.

Lemma grows_poll_until_in_stock fuel product_id :
  grows (poll_until_in_stock fuel product_id).
Proof.
  induction fuel as [|fuel IH]; cbn [poll_until_in_stock];
    repeat grows_step.
Qed.

#[local] Hint Resolve grows_poll_until_in_stock : grows.

Lemma grows_buy fuel product_id : grows (buy fuel product_id).
Proof.
  induction fuel as [|fuel IH]; cbn [buy]; repeat grows_step.
Qed.

#[local] Hint Resolve grows_buy : grows.

(** ** The stock poll *)

Lemma is_in_stock_response product_id w r :
  env w (tick w) = Response r ->
  is_in_stock product_id w
  = (Ok (Str.contains IN_STOCK_MARKER (text r)),
     called (stock_poll_events (self w) product_id r) w).
Proof.
  intros H. unfold is_in_stock, stock_poll_events, called. run_monad.
  rewrite H.
  destruct (negb (status_code r =? 200)%Z);
    destruct (Str.contains IN_STOCK_MARKER (text r)); reflexivity.
Qed.

Lemma is_in_stock_fault product_id w :
  env w (tick w) = Fault ->
  is_in_stock product_id w
  = (Ok false,
     called [Log LogUnexpectedReply;
             Http (GetStock (locale (self w)) (currency_of (locale (self w)))
                            product_id)] w).
Proof.
  intros H. unfold is_in_stock, called. run_monad. now rewrite H.
Qed.

(** Whatever the environment answers, the poll returns a boolean, and its
    first event is the stock request. *)
Lemma is_in_stock_total product_id w :
  exists (in_stock : bool) (evs : list event),
    is_in_stock product_id w
    = (Ok in_stock,
       called (evs ++ [Http (GetStock (locale (self w))
                                      (currency_of (locale (self w)))
                                      product_id)])%list w).
Proof.
  destruct (env w (tick w)) as [r|] eqn:H.
  - rewrite (is_in_stock_response _ _ _ H). unfold stock_poll_events.
    eexists. exists
      ((if negb (status_code r =? 200)%Z then [Log (LogBody (text r))]
        else []) ++ [Log (LogStockStatus (status_code r))])%list.
    now rewrite <- app_assoc.
  - rewrite (is_in_stock_fault _ _ H).
    now exists false, [Log LogUnexpectedReply].
Qed.

(** C8. Whatever response a stock poll receives, and whatever its status
    code, the poll raises nothing and returns true exactly when the
    in-stock marker occurs in the raw body; the buyer object is left as it
    was. *)
Theorem is_in_stock_iff_marker (product_id : string) (w : world)
    (r : response) :
  env w (tick w) = Response r ->
  exists (in_stock : bool) (w' : world),
    is_in_stock product_id w = (Ok in_stock, w') /\
    (in_stock = true <-> Str.occurs_in IN_STOCK_MARKER (text r)) /\
    self w' = self w.
Proof.
  intros H. rewrite (is_in_stock_response _ _ _ H).
  eexists. eexists. split; [reflexivity|].
  split; [apply contains_occurs | reflexivity].
Qed.

(** A 503 answer whose body carries the marker is in stock. *)
Lemma is_in_stock_iff_marker_witness :
  let w := start buyer [Response stock_hit_503] in
  env w (tick w) = Response stock_hit_503 /\
  exists (in_stock : bool) (w' : world),
    is_in_stock "AT-3080" w = (Ok in_stock, w') /\
    (in_stock = true <-> Str.occurs_in IN_STOCK_MARKER (text stock_hit_503)) /\
    self w' = self w.
Proof.
  split; [reflexivity|].
  apply (is_in_stock_iff_marker "AT-3080" (start buyer [Response stock_hit_503])
           stock_hit_503).
  reflexivity.
Defined.

(** C4, as stated, fails: after a stock poll whose request failed in
    transport, no API status of the buyer is OFFLINE. *)
Lemma is_in_stock_failure_leaves_status :
  let run := is_in_stock "AT-3080" (start buyer [Fault]) in
  fst run = Ok false /\
  api_status (self (snd run)) <> OFFLINE /\
  api_online (self (snd run)) <> Some OFFLINE.
Proof. repeat split; vm_compute; discriminate. Qed.

(** C4, amended. When the request of a stock poll raises a transport
    failure, the poll returns false and propagates nothing; the buyer
    object, its API status included, is left as it was. *)
Theorem is_in_stock_transport_failure (product_id : string) (w : world) :
  env w (tick w) = Fault ->
  exists w' : world,
    is_in_stock product_id w = (Ok false, w') /\
    self w' = self w.
Proof.
  intros H. rewrite (is_in_stock_fault _ _ H).
  eexists. split; reflexivity.
Qed.

Lemma is_in_stock_transport_failure_witness :
  let w := start buyer [Fault] in
  env w (tick w) = Fault /\
  exists w' : world,
    is_in_stock "AT-3080" w = (Ok false, w') /\ self w' = self w.
Proof.
  split; [reflexivity|].
  apply (is_in_stock_transport_failure "AT-3080" (start buyer [Fault])).
  reflexivity.
Defined.

(** ** API status *)

Lemma updateApiStatus_keeps_api_status status w :
  api_status (self (snd (updateApiStatus status w))) = api_status (self w).
Proof.
  unfold updateApiStatus. run_monad.
  destruct (API_STATUS_eqb (api_status (self w)) OFFLINE
            && API_STATUS_eqb status ONLINE); [|reflexivity].
  now destruct (env w (tick w)).
Qed.

(** Called with OFFLINE, [updateApiStatus] sends nothing and cannot fail. *)
Lemma updateApiStatus_offline w :
  updateApiStatus OFFLINE w
  = (Ok tt, mkWorld (set_api_online OFFLINE (self w)) (env w) (tick w)
                    (trace w)).
Proof.
  unfold updateApiStatus. run_monad.
  destruct (api_status (self w)); reflexivity.
Qed.

(** While [api_status] is ONLINE, a call sends nothing either. *)
Lemma updateApiStatus_while_online status w :
  api_status (self w) = ONLINE ->
  updateApiStatus status w
  = (Ok tt, mkWorld (set_api_online status (self w)) (env w) (tick w)
                    (trace w)).
Proof.
  intros H. unfold updateApiStatus. run_monad. now rewrite H.
Qed.

(** C2. [updateApiStatus] never writes [api_status], the attribute its
    flip test reads: a freshly built buyer told OFFLINE and then ONLINE
    still has [api_status] ONLINE after the first call, and the second call
    emits no notification. *)
Theorem updateApiStatus_misses_the_flip :
  (forall (status : API_STATUS) (w : world),
      api_status (self (snd (updateApiStatus status w)))
      = api_status (self w)) /\
  (let w1 := snd (updateApiStatus OFFLINE (start buyer [delivered])) in
   let w2 := snd (updateApiStatus ONLINE w1) in
   api_status (self w1) = ONLINE /\
   api_online (self w1) = Some OFFLINE /\
   fst (updateApiStatus ONLINE w1) = Ok tt /\
   trace w2 = []).
Proof.
  split; [apply updateApiStatus_keeps_api_status|].
  repeat split; vm_compute; reflexivity.
Qed.

(** ** Session token and cart *)

Lemma get_session_token_ok w r m tok :
  env w (tick w) = Response r ->
  status_code r = 200%Z ->
  json_body r = Some (JObj m) ->
  m !! TOKEN_FIELD = Some tok ->
  get_session_token w
  = (Ok (TokPair true tok), called [Http (GetToken (locale (self w)))] w).
Proof.
  intros H H200 Hj Hm. unfold get_session_token, called. run_monad.
  rewrite H, H200, Hj. cbn. rewrite Hm. reflexivity.
Qed.

Lemma get_session_token_field_absent w r m :
  env w (tick w) = Response r ->
  status_code r = 200%Z ->
  json_body r = Some (JObj m) ->
  m !! TOKEN_FIELD = None ->
  fst (get_session_token w) = Ok (TokPair false (JStr "")).
Proof.
  intros H H200 Hj Hm. unfold get_session_token. run_monad.
  rewrite H, H200, Hj. cbn. rewrite Hm. reflexivity.
Qed.

Lemma get_session_token_other_status w r :
  env w (tick w) = Response r ->
  status_code r <> 200%Z ->
  get_session_token w
  = (Ok TokNone,
     called [Log (LogTokenStatus (status_code r));
             Http (GetToken (locale (self w)))] w).
Proof.
  intros H Hne. unfold get_session_token, called. run_monad.
  rewrite H. apply Z.eqb_neq in Hne. now rewrite Hne.
Qed.

Lemma get_session_token_fault w :
  env w (tick w) = Fault ->
  get_session_token w
  = (Ok TokFalse,
     called [Log LogUnexpectedReply; Http (GetToken (locale (self w)))] w).
Proof.
  intros H. unfold get_session_token, called. run_monad. now rewrite H.
Qed.

(** Without a 2-tuple to unpack, [add_to_cart] dies of a [TypeError], which
    its [except] clause does not catch. *)
Lemma add_to_cart_token_other_status product_id w r :
  env w (tick w) = Response r ->
  status_code r <> 200%Z ->
  fst (add_to_cart product_id w) = Raise TypeError.
Proof.
  intros H Hne. unfold add_to_cart, try_except.
  rewrite (bind_ok _ _ _ _ _ (get_session_token_other_status _ _ H Hne)).
  reflexivity.
Qed.

Lemma add_to_cart_token_fault product_id w :
  env w (tick w) = Fault ->
  fst (add_to_cart product_id w) = Raise TypeError.
Proof.
  intros H. unfold add_to_cart, try_except.
  rewrite (bind_ok _ _ _ _ _ (get_session_token_fault _ H)).
  reflexivity.
Qed.

(** C1. At a token endpoint that answers HTTP 503, [get_session_token]
    falls off its end and returns [None]; at one whose request fails in
    transport it returns the bare [False]. Neither is the pair
    [(False, "")], and [add_to_cart], which unpacks a pair, ends in a
    [TypeError] both times. *)
Theorem get_session_token_not_always_a_pair :
  fst (get_session_token (start buyer [Response token_503])) = Ok TokNone /\
  fst (get_session_token (start buyer [Fault])) = Ok TokFalse /\
  fst (add_to_cart "AT-3080" (start buyer [Response token_503]))
  = Raise TypeError /\
  fst (add_to_cart "AT-3080" (start buyer [Fault])) = Raise TypeError.
Proof. repeat split; vm_compute; reflexivity. Qed.

(** With a token in hand, the result of [add_to_cart] is decided by the
    answer to the cart POST. *)
Lemma add_to_cart_after_token product_id w rt m tok :
  env w (tick w) = Response rt ->
  status_code rt = 200%Z ->
  json_body rt = Some (JObj m) ->
  m !! TOKEN_FIELD = Some tok ->
  fst (add_to_cart product_id w)
  = match env w (S (tick w)) with
    | Fault => Ok false
    | Response r =>
        if (status_code r =? 200)%Z then
          match json_body r with
          | None =>
              match json_error r with
              | RequestException => Ok false
              | e => Raise e
              end
          | Some j =>
              match py_getitem j MESSAGE_FIELD with
              | Exc e => Raise e
              | Val msg =>
                  match py_in CART_SUCCESS_WORD msg with
                  | Exc e => Raise e
                  | Val ok => Ok ok
                  end
              end
          end
        else Ok false
    end.
Proof.
  intros H H200 Hj Hm. unfold add_to_cart.
  unfold try_except at 1.
  rewrite (bind_ok _ _ _ _ _ (get_session_token_ok _ _ _ _ H H200 Hj Hm)).
  unfold called, unpack2. run_monad. cbn.
  destruct (env w (S (tick w))) as [r|]; [|reflexivity].
  destruct (status_code r =? 200)%Z; [|reflexivity].
  destruct (json_body r) as [j|]; [|now destruct (json_error r)].
  destruct j as [| | | | |mj]; try reflexivity.
  cbn [py_getitem].
  destruct (mj !! MESSAGE_FIELD) as [msg|]; [|reflexivity].
  destruct msg; cbn [py_in]; try reflexivity;
    match goal with |- context [if ?b then _ else _] => now destruct b end.
Qed.

(** C7, as stated, fails: a cart POST answered with HTTP 201 and a message
    that contains the success word is reported as a failure. *)
Lemma add_to_cart_201_reports_failure :
  let run := add_to_cart "AT-3080"
               (start buyer [Response token_200; Response cart_201]) in
  In (status_code cart_201) CART_SUCCESS_CODES /\
  py_in CART_SUCCESS_WORD (JStr "Added successfully") = Val true /\
  fst run = Ok false /\
  history run
  = [Http (GetToken "de_de"); Log (LogToken (JStr "tok"));
     Http (PostCart "de_de" (JStr "tok") "AT-3080");
     Log (LogBody ""); Log (LogCartFailed 201)].
Proof.
  split; [left; reflexivity|]. repeat split; vm_compute; reflexivity.
Qed.

(** C7, amended. Once the session token is obtained, [add_to_cart] reports
    success exactly when the cart POST is answered with HTTP 200 and the
    message field of its JSON body contains the success word; every other
    status, 201 included, yields false, and so does a transport failure of
    the POST. *)
Theorem add_to_cart_success_iff_200 (product_id : string) (w : world)
    (rt : response) (m : gmap string json) (tok : json) :
  env w (tick w) = Response rt ->
  status_code rt = 200%Z ->
  json_body rt = Some (JObj m) ->
  m !! TOKEN_FIELD = Some tok ->
  (fst (add_to_cart product_id w) = Ok true <->
   exists (r : response) (j msg : json),
     env w (S (tick w)) = Response r /\
     status_code r = 200%Z /\
     json_body r = Some j /\
     py_getitem j MESSAGE_FIELD = Val msg /\
     py_in CART_SUCCESS_WORD msg = Val true) /\
  (forall r : response,
      env w (S (tick w)) = Response r ->
      status_code r <> 200%Z ->
      fst (add_to_cart product_id w) = Ok false) /\
  (env w (S (tick w)) = Fault ->
   fst (add_to_cart product_id w) = Ok false).
Proof.
  intros H H200 Hj Hm.
  rewrite (add_to_cart_after_token product_id _ _ _ _ H H200 Hj Hm).
  split; [split|split].
  - destruct (env w (S (tick w))) as [r|]; [|discriminate].
    destruct (status_code r =? 200)%Z eqn:E; [|discriminate].
    destruct (json_body r) as [j|] eqn:Ej;
      [|destruct (json_error r); discriminate].
    destruct (py_getitem j MESSAGE_FIELD) as [msg|] eqn:Eg; [|discriminate].
    destruct (py_in CART_SUCCESS_WORD msg) as [ok|] eqn:Ei; [|discriminate].
    intros Hok. exists r, j, msg. apply Z.eqb_eq in E.
    repeat split; try assumption. congruence.
  - intros (r & j & msg & -> & E & Ej & Eg & Ei).
    apply Z.eqb_eq in E. now rewrite E, Ej, Eg, Ei.
  - intros r -> Hne. apply Z.eqb_neq in Hne. now rewrite Hne.
  - now intros ->.
Qed.

Lemma add_to_cart_success_iff_200_witness :
  let w := start buyer [Response token_200; Response cart_200] in
  let m : gmap string json := {[ "session_token" := JStr "tok" ]} in
  (env w (tick w) = Response token_200 /\
   status_code token_200 = 200%Z /\
   json_body token_200 = Some (JObj m) /\
   m !! TOKEN_FIELD = Some (JStr "tok")) /\
  (fst (add_to_cart "AT-3080" w) = Ok true <->
   exists (r : response) (j msg : json),
     env w (S (tick w)) = Response r /\
     status_code r = 200%Z /\
     json_body r = Some j /\
     py_getitem j MESSAGE_FIELD = Val msg /\
     py_in CART_SUCCESS_WORD msg = Val true) /\
  (forall r : response,
      env w (S (tick w)) = Response r ->
      status_code r <> 200%Z ->
      fst (add_to_cart "AT-3080" w) = Ok false) /\
  (env w (S (tick w)) = Fault ->
   fst (add_to_cart "AT-3080" w) = Ok false).
Proof.
  split; [repeat split; reflexivity|].
  apply (add_to_cart_success_iff_200 "AT-3080"
           (start buyer [Response token_200; Response cart_200])
           token_200 {[ "session_token" := JStr "tok" ]} (JStr "tok"));
    reflexivity.
Defined.

(** ** The worker *)

Lemma buy_unfold fuel product_id :
  buy (S fuel) product_id
  = try_except (buy_try fuel product_id) (buy_except fuel product_id).
Proof. reflexivity. Qed.

Lemma buy_try_phases fuel product_id w :
  buy_try fuel product_id w
  = (checking fuel product_id ≫= fun _ => reserving fuel product_id) w.
Proof.
  unfold buy_try, checking, mbind, M_bind, get_self, log, emit.
  destruct (poll_until_in_stock fuel product_id _) as [[[]|e|] w1];
    try reflexivity;
    destruct (updateApiStatus ONLINE w1) as [[[]|e|] w2]; reflexivity.
Qed.

Lemma contained_is_in_stock product_id : contained (is_in_stock product_id).
Proof. apply contained_try. intros w. discriminate. Qed.

Lemma contained_get_session_token : contained get_session_token.
Proof.
  unfold get_session_token.
  apply contained_bind; [intros w; discriminate|].
  intros b. apply contained_try. intros w. discriminate.
Qed.

Lemma contained_add_to_cart product_id : contained (add_to_cart product_id).
Proof. apply contained_try. intros w. discriminate. Qed.

Lemma contained_buy fuel product_id : contained (buy fuel product_id).
Proof.
  induction fuel as [|fuel IH]; [intros w; discriminate|].
  rewrite buy_unfold. apply contained_try. intros w.
  unfold buy_except, mbind, M_bind, log, emit.
  rewrite updateApiStatus_offline. apply IH.
Qed.

(** Every cycle of [buy] opens with its two log lines and a stock request,
    whatever happens next. *)
Lemma buy_starts_with_stock_check fuel product_id w :
  reaches (buy (S (S fuel)) product_id) w
          (cycle_start (self w) product_id ++ trace w)%list.
Proof.
  cbn [buy poll_until_in_stock].
  eapply reaches_try_bind; [reflexivity|]. cbn beta.
  eapply reaches_try_bind; [reflexivity|]. cbn beta.
  eapply reaches_try_bind; [reflexivity|]. cbn beta.
  match goal with
  | |- reaches (try_except (mbind _ (mbind _ (is_in_stock ?p))) _) ?w0 _ =>
      destruct (is_in_stock_total p w0) as (in_stock & evs & Hpoll)
  end.
  eapply reaches_try_bind_bind; [exact Hpoll|].
  eapply reaches_of_grows with (evs := evs); [repeat grows_step|].
  unfold called, cycle_start. cbn [trace self].
  now rewrite <- app_assoc.
Qed.

(** C6, as stated, fails: after the failure notification the next request
    is a stock check, and since that poll finds no stock the worker waits
    and polls again before it goes back to the cart. *)
Lemma buy_cart_failure_checks_stock_again :
  let w := start buyer
             [Response stock_hit; Response token_200; Response cart_503;
              delivered;
              Response stock_miss; Response stock_hit; Response token_200;
              Response cart_200; delivered] in
  let run := buy 4 "AT-3080" w in
  fst run = Ok tt /\
  history run
  = [Log (LogStockCheckStart "AT-3080" 5); Log (LogBuyStart ONLINE);
     Http (GetStock "de_de" "EUR" "AT-3080"); Log (LogStockStatus 200);
     Http (GetToken "de_de"); Log (LogToken (JStr "tok"));
     Http (PostCart "de_de" (JStr "tok") "AT-3080");
     Log (LogBody "Service Unavailable"); Log (LogCartFailed 503);
     Notify CartError;
     Log (LogStockCheckStart "AT-3080" 5); Log (LogBuyStart ONLINE);
     Http (GetStock "de_de" "EUR" "AT-3080"); Log (LogStockStatus 200);
     Spin 1; Sleep 5;
     Http (GetStock "de_de" "EUR" "AT-3080"); Log (LogStockStatus 200);
     Http (GetToken "de_de"); Log (LogToken (JStr "tok"));
     Http (PostCart "de_de" (JStr "tok") "AT-3080"); PrintOut added;
     Log LogAddedToCart; OpenBrowser; Notify (InStock "AT-3080")].
Proof. repeat split; vm_compute; reflexivity. Qed.

(** C6, amended. When [add_to_cart] on an in-stock product returns [False]
    (purchasing being enabled) and the failure notification is delivered,
    the worker, having emitted that notification, runs the whole [buy]
    cycle again for the same product id, from CHECKING: the next request
    after the notification is a stock check, not a token or cart
    request. *)
Theorem buy_cart_failure_restarts_cycle (fuel : nat) (product_id : string)
    (w w1 w2 : world) (r : response) :
  checking (S (S fuel)) product_id w = (Ok tt, w1) ->
  enabled (self w1) = true ->
  add_to_cart product_id w1 = (Ok false, w2) ->
  env w2 (tick w2) = Response r ->
  buy (S (S (S fuel))) product_id w
  = buy (S (S fuel)) product_id (called [Notify CartError] w2) /\
  exists evs : list event,
    trace (snd (buy (S (S (S fuel))) product_id w))
    = (evs ++ cycle_start (self w2) product_id
           ++ Notify CartError :: trace w2)%list.
Proof.
  intros Hcheck Hen Hcart Hsent.
  assert (Hrun : buy (S (S (S fuel))) product_id w
                 = buy (S (S fuel)) product_id (called [Notify CartError] w2)).
  { rewrite buy_unfold.
    assert (Htry : buy_try (S (S fuel)) product_id w
                   = buy (S (S fuel)) product_id
                         (called [Notify CartError] w2)).
    { rewrite buy_try_phases, (bind_ok _ _ _ _ _ Hcheck).
      unfold reserving.
      rewrite (bind_ok get_self _ w1 (self w1) w1) by reflexivity.
      rewrite Hen, (bind_ok _ _ _ _ _ Hcart).
      assert (Hn : send_notification CartError w2
                   = (Ok tt, called [Notify CartError] w2)).
      { unfold send_notification, call_out, called, mbind, M_bind.
        now rewrite Hsent. }
      now rewrite (bind_ok _ _ _ _ _ Hn). }
    rewrite try_passed; rewrite Htry; [reflexivity | apply contained_buy]. }
  split; [exact Hrun|]. rewrite Hrun.
  apply (buy_starts_with_stock_check fuel product_id
           (called [Notify CartError] w2)).
Qed.

Lemma buy_cart_failure_restarts_cycle_witness :
  let w := start buyer
             [Response stock_hit; Response token_200; Response cart_503;
              delivered;
              Response stock_miss; Response stock_hit; Response token_200;
              Response cart_200; delivered] in
  let w1 := snd (checking 3 "AT-3080" w) in
  let w2 := snd (add_to_cart "AT-3080" w1) in
  (checking 3 "AT-3080" w = (Ok tt, w1) /\
   enabled (self w1) = true /\
   add_to_cart "AT-3080" w1 = (Ok false, w2) /\
   env w2 (tick w2) = delivered) /\
  buy 4 "AT-3080" w = buy 3 "AT-3080" (called [Notify CartError] w2) /\
  exists evs : list event,
    trace (snd (buy 4 "AT-3080" w))
    = (evs ++ cycle_start (self w2) "AT-3080"
           ++ Notify CartError :: trace w2)%list.
Proof.
  split; [repeat split; vm_compute; reflexivity|].
  eapply (buy_cart_failure_restarts_cycle 1 "AT-3080");
    vm_compute; reflexivity.
Defined.

(** C3, as stated, fails. First run: a transport failure of the first
    stock poll of a worker whose attempt count stands at 3 leaves the buyer
    object as it was, sets no API status to OFFLINE and restarts nothing;
    the count goes on to 4. Second run: a [RequestException] that does
    reach the [except] clause of [buy] (here from the notification handler)
    restarts the cycle, and the count, 4 by then, is still 4 at the end. *)
Lemma buy_poll_failure_keeps_counting :
  (let w := start (set_attempt 3 buyer)
              [Fault; Response stock_hit; Response token_200;
               Response cart_200; delivered] in
   let run := buy 3 "AT-3080" w in
   self (snd (is_in_stock "AT-3080" w)) = set_attempt 3 buyer /\
   fst run = Ok tt /\
   attempt (self (snd run)) = 4%Z /\
   api_status (self (snd run)) = ONLINE /\
   api_online (self (snd run)) = Some ONLINE /\
   history run
   = [Log (LogStockCheckStart "AT-3080" 5); Log (LogBuyStart ONLINE);
      Http (GetStock "de_de" "EUR" "AT-3080"); Log LogUnexpectedReply;
      Spin 4; Sleep 5;
      Http (GetStock "de_de" "EUR" "AT-3080"); Log (LogStockStatus 200);
      Http (GetToken "de_de"); Log (LogToken (JStr "tok"));
      Http (PostCart "de_de" (JStr "tok") "AT-3080"); PrintOut added;
      Log LogAddedToCart; OpenBrowser; Notify (InStock "AT-3080")]) /\
  (let w := start (set_attempt 3 buyer)
              [Response stock_miss; Response stock_hit; Response token_200;
               Response cart_200_refused; Fault;
               Response stock_hit; Response token_200; Response cart_200;
               delivered] in
   let run := buy 4 "AT-3080" w in
   fst run = Ok tt /\
   attempt (self (snd run)) = 4%Z /\
   api_status (self (snd run)) = ONLINE /\
   history run
   = [Log (LogStockCheckStart "AT-3080" 5); Log (LogBuyStart ONLINE);
      Http (GetStock "de_de" "EUR" "AT-3080"); Log (LogStockStatus 200);
      Spin 4; Sleep 5;
      Http (GetStock "de_de" "EUR" "AT-3080"); Log (LogStockStatus 200);
      Http (GetToken "de_de"); Log (LogToken (JStr "tok"));
      Http (PostCart "de_de" (JStr "tok") "AT-3080"); PrintOut refused;
      Notify CartError;
      Log LogConnectionError; Log LogUnexpectedReply;
      Log (LogStockCheckStart "AT-3080" 5); Log (LogBuyStart ONLINE);
      Http (GetStock "de_de" "EUR" "AT-3080"); Log (LogStockStatus 200);
      Http (GetToken "de_de"); Log (LogToken (JStr "tok"));
      Http (PostCart "de_de" (JStr "tok") "AT-3080"); PrintOut added;
      Log LogAddedToCart; OpenBrowser; Notify (InStock "AT-3080")]).
Proof. repeat split; vm_compute; reflexivity. Qed.

(** C3, amended. When a [RequestException] reaches the [except] clause of
    [buy], the worker logs and runs the whole cycle again for the same
    product id, from CHECKING: the restarted cycle opens with a stock
    check. The attempt count is not reset: the restart continues from the
    count reached, and the count never decreases. A [RequestException]
    raised by a stock, token or cart request does not reach that clause:
    [is_in_stock], [get_session_token] and [add_to_cart] catch it. *)
Theorem buy_exception_restarts_cycle (fuel : nat) (product_id : string)
    (w w1 : world) :
  buy_try (S (S fuel)) product_id w = (Raise RequestException, w1) ->
  (exists w2 : world,
      buy (S (S (S fuel))) product_id w = buy (S (S fuel)) product_id w2 /\
      trace w2
      = (Log LogUnexpectedReply :: Log LogConnectionError :: trace w1) /\
      attempt (self w2) = attempt (self w1) /\
      (exists evs : list event,
          trace (snd (buy (S (S (S fuel))) product_id w))
          = (evs ++ cycle_start (self w2) product_id ++ trace w2)%list) /\
      (attempt (self w1)
       <= attempt (self (snd (buy (S (S (S fuel))) product_id w))))%Z) /\
  (forall p w', fst (is_in_stock p w') <> Raise RequestException) /\
  (forall w', fst (get_session_token w') <> Raise RequestException) /\
  (forall p w', fst (add_to_cart p w') <> Raise RequestException).
Proof.
  intros Htry. split; [|split; [|split]].
  - set (w2 := mkWorld (set_api_online OFFLINE (self w1)) (env w1) (tick w1)
                 (Log LogUnexpectedReply :: Log LogConnectionError
                  :: trace w1)).
    assert (Hrun : buy (S (S (S fuel))) product_id w
                   = buy (S (S fuel)) product_id w2).
    { rewrite buy_unfold, (try_caught _ _ _ _ Htry).
      unfold buy_except, mbind, M_bind, log, emit.
      now rewrite updateApiStatus_offline. }
    exists w2. split; [exact Hrun|]. rewrite Hrun.
    split; [reflexivity|]. split; [reflexivity|]. split.
    + apply (buy_starts_with_stock_check fuel product_id w2).
    + apply (proj2 (grows_buy (S (S fuel)) product_id w2)).
  - intros p. apply contained_is_in_stock.
  - apply contained_get_session_token.
  - intros p. apply contained_add_to_cart.
Qed.

Lemma buy_exception_restarts_cycle_witness :
  let w := start buyer
             [Response stock_hit; Response token_200;
              Response cart_200_refused; Fault;
              Response stock_hit; Response token_200; Response cart_200;
              delivered] in
  let w1 := snd (buy_try 2 "AT-3080" w) in
  buy_try 2 "AT-3080" w = (Raise RequestException, w1) /\
  exists w2 : world,
    buy 3 "AT-3080" w = buy 2 "AT-3080" w2 /\
    trace w2
    = (Log LogUnexpectedReply :: Log LogConnectionError :: trace w1) /\
    attempt (self w2) = attempt (self w1) /\
    (exists evs : list event,
        trace (snd (buy 3 "AT-3080" w))
        = (evs ++ cycle_start (self w2) "AT-3080" ++ trace w2)%list) /\
    (attempt (self w1) <= attempt (self (snd (buy 3 "AT-3080" w))))%Z.
Proof.
  intros w w1. split; [vm_compute; reflexivity|].
  apply (buy_exception_restarts_cycle 0 "AT-3080" w w1).
  vm_compute; reflexivity.
Defined.

(** * Further properties *)

(** ** Construction and catalog *)

Lemma set_product_ids_same (b : NvidiaBuyer) :
  set_product_ids (product_ids b) b = b.
Proof. now destruct b. Qed.

Lemma get_product_ids_entry (PRODUCT_IDS : gmap string (gmap string json))
    (b : NvidiaBuyer) (e : json) :
  catalog_entry PRODUCT_IDS (cli_locale b) (gpu b) = Val e ->
  get_product_ids PRODUCT_IDS b
  = Val (set_product_ids (entry_ids e (product_ids b)) b).
Proof.
  intros H. unfold get_product_ids. rewrite H.
  destruct e; cbn [entry_ids]; now rewrite ?set_product_ids_same.
Qed.

Lemma catalog_entry_cases (PRODUCT_IDS : gmap string (gmap string json))
    (loc family : string) :
  match catalog_entry PRODUCT_IDS loc family with
  | Val e =>
      exists families,
        PRODUCT_IDS !! loc = Some families /\ families !! family = Some e
  | Exc x =>
      x = KeyError /\
      (PRODUCT_IDS !! loc = None \/
       exists families,
         PRODUCT_IDS !! loc = Some families /\ families !! family = None)
  end.
Proof.
  unfold catalog_entry.
  destruct (PRODUCT_IDS !! loc) as [families|]; [|now auto].
  destruct (families !! family) as [e|] eqn:E; eauto.
Qed.

(** X1. [__init__] returns a buyer exactly when the collaborators' set-up
    calls return, the family has a display name and the catalog has an
    entry under the lowercased CLI locale and the family; the ids of the
    buyer are then that entry if it is a list, the one-element list of it
    if it is a string, and none (without an error) if it is anything else.
    Otherwise [__init__] raises, in this order of precedence: what
    [requests.Session()] raised, [KeyError] for a family without display
    name, what the later set-up calls raised, [KeyError] for a locale or
    family missing from the catalog. *)
Theorem construct_outcome (PRODUCT_IDS : gmap string (gmap string json))
    (session setup : res unit) (gpu_ user_locale : string) (test_ : bool)
    (interval_ : Z) :
  Str.is_ascii user_locale = true ->
  match construct PRODUCT_IDS session setup gpu_ user_locale test_ interval_
  with
  | Val b =>
      session = Val tt /\ setup = Val tt /\
      exists long_name families e,
        GPU_DISPLAY_NAMES !! gpu_ = Some long_name /\
        PRODUCT_IDS !! Str.lower user_locale = Some families /\
        families !! gpu_ = Some e /\
        product_ids b = match e with
                        | JArr ids => ids
                        | JStr id => [JStr id]
                        | _ => []
                        end
  | Exc x =>
      session = Exc x \/
      (session = Val tt /\ x = KeyError /\ GPU_DISPLAY_NAMES !! gpu_ = None) \/
      (session = Val tt /\ is_Some (GPU_DISPLAY_NAMES !! gpu_) /\
       setup = Exc x) \/
      (session = Val tt /\ is_Some (GPU_DISPLAY_NAMES !! gpu_) /\
       setup = Val tt /\ x = KeyError /\
       (PRODUCT_IDS !! Str.lower user_locale = None \/
        exists families,
          PRODUCT_IDS !! Str.lower user_locale = Some families /\
          families !! gpu_ = None))
  end.
Proof.
  intros _.
  pose proof (catalog_entry_cases PRODUCT_IDS (Str.lower user_locale) gpu_)
    as Hc.
  unfold construct.
  destruct session as [[]|x]; [|now left].
  destruct (GPU_DISPLAY_NAMES !! gpu_) as [long_name|] eqn:Hg;
    [|right; left; now auto].
  destruct setup as [[]|x]; [|right; right; left; now eauto].
  destruct (catalog_entry PRODUCT_IDS (Str.lower user_locale) gpu_)
    as [e|x] eqn:E.
  - rewrite (get_product_ids_entry PRODUCT_IDS _ e) by exact E.
    destruct Hc as (families & H1 & H2).
    split; [reflexivity|]. split; [reflexivity|].
    exists long_name, families, e. repeat split; assumption.
  - unfold get_product_ids. cbn [cli_locale gpu]. rewrite E.
    destruct Hc as [-> Hc]. right; right; right. now eauto 6.
Qed.

Lemma construct_outcome_witness :
  Str.is_ascii "DE_AT" = true /\
  (@Val unit tt = Val tt /\ @Val unit tt = Val tt /\
   exists long_name families e,
     GPU_DISPLAY_NAMES !! "3090" = Some long_name /\
     example_catalog !! Str.lower "DE_AT" = Some families /\
     families !! "3090" = Some e /\
     [JStr "AT-3090"] = match e with
                        | JArr ids => ids
                        | JStr id => [JStr id]
                        | _ => []
                        end).
Proof.
  split; [reflexivity|].
  exact (construct_outcome example_catalog (Val tt) (Val tt) "3090" "DE_AT"
           false 5 eq_refl).
Defined.

(** X3. Resolving the product ids again changes nothing, and when the
    entry is a list or a string the result does not depend on the ids held
    before. *)
Theorem get_product_ids_again
    (PRODUCT_IDS : gmap string (gmap string json)) :
  (forall b b' : NvidiaBuyer,
      get_product_ids PRODUCT_IDS b = Val b' ->
      get_product_ids PRODUCT_IDS b' = Val b') /\
  (forall (b : NvidiaBuyer) (e : json) (old : list json),
      catalog_entry PRODUCT_IDS (cli_locale b) (gpu b) = Val e ->
      (exists ids, e = JArr ids) \/ (exists id, e = JStr id) ->
      get_product_ids PRODUCT_IDS (set_product_ids old b)
      = get_product_ids PRODUCT_IDS b).
Proof.
  split.
  - intros b b' H.
    destruct (catalog_entry PRODUCT_IDS (cli_locale b) (gpu b)) as [e|x] eqn:E.
    + rewrite (get_product_ids_entry _ _ _ E) in H. inversion H; subst b'.
      rewrite (get_product_ids_entry _ _ e) by exact E.
      destruct e; reflexivity.
    + unfold get_product_ids in H. rewrite E in H. discriminate.
  - intros b e old E Hshape.
    rewrite (get_product_ids_entry _ (set_product_ids old b) e) by exact E.
    rewrite (get_product_ids_entry _ b e) by exact E.
    destruct Hshape as [[ids ->]|[id ->]]; reflexivity.
Qed.

Lemma get_product_ids_again_witness :
  get_product_ids example_catalog buyer = Val buyer /\
  get_product_ids example_catalog (set_product_ids [] buyer)
  = get_product_ids example_catalog buyer.
Proof.
  split.
  - apply (proj1 (get_product_ids_again example_catalog) buyer buyer).
    vm_compute; reflexivity.
  - apply (proj2 (get_product_ids_again example_catalog) buyer
             (JArr [JStr "AT-3080"]) []).
    + vm_compute; reflexivity.
    + left. now exists [JStr "AT-3080"].
Defined.

Lemma map_locales_not_remapped (c : string) :
  ~ In (map_locales c) remapped_codes.
Proof.
  locale_cases c; cbn [remapped_codes In]; intuition (try discriminate).
  all: congruence.
Qed.

(** Look a key up in a map built by [list_to_map], one binding at a time. *)
Ltac lookup_cases l :=
  repeat match goal with
         | |- context [<[?k:=?v]> ?m !! l] =>
             destruct (decide (k = l)) as [<-|?];
             [rewrite lookup_insert_eq
             |rewrite lookup_insert_ne by assumption]
         end;
  rewrite ?lookup_empty.

Lemma currency_of_not_remapped (l : string) :
  ~ In l remapped_codes ->
  In (currency_of l) ["USD"; "GBP"; "EUR"; "SEK"].
Proof.
  intros H. unfold currency_of, CURRENCY_LOCALE_MAP.
  cbn [list_to_map foldr uncurry fst snd].
  lookup_cases l; cbn [default In remapped_codes] in *;
    solve [auto 8 | exfalso; auto 8].
Qed.

(** X4. The resolver never returns one of the four codes it remaps, so the
    currency sent with a request is USD, GBP, EUR or SEK: the DKK and CZK
    entries of the currency table are never used. *)
Theorem resolve_locale_currency (user_locale : string) :
  ~ In (resolve_locale user_locale) remapped_codes /\
  In (currency_of (resolve_locale user_locale)) ["USD"; "GBP"; "EUR"; "SEK"] /\
  currency_of (resolve_locale "da_dk") = "GBP" /\
  currency_of (resolve_locale "cs_cz") = "GBP".
Proof.
  split; [apply map_locales_not_remapped|].
  split; [apply currency_of_not_remapped, map_locales_not_remapped|].
  split; reflexivity.
Qed.

(** ** Session token and cart, continued *)

(** X5. [get_session_token] returns [(True, token)] exactly when the
    request is answered with HTTP 200 and a JSON body that holds the token
    field, and [token] is then the value of that field. *)
Theorem get_session_token_success_iff (w : world) (tok : json) :
  fst (get_session_token w) = Ok (TokPair true tok) <->
  exists (r : response) (j : json),
    env w (tick w) = Response r /\
    status_code r = 200%Z /\
    json_body r = Some j /\
    py_in TOKEN_FIELD j = Val true /\
    py_getitem j TOKEN_FIELD = Val tok.
Proof.
  unfold get_session_token. run_monad. split.
  - destruct (env w (tick w)) as [r|]; [|discriminate].
    destruct (status_code r =? 200)%Z eqn:E200; [|discriminate].
    destruct (json_body r) as [j|] eqn:Ej;
      [|destruct (json_error r); discriminate].
    intros H. exists r, j. apply Z.eqb_eq in E200.
    destruct (py_in TOKEN_FIELD j) as [[]|x] eqn:Ein; cbn in H;
      try discriminate; [|destruct x; discriminate].
    destruct (py_getitem j TOKEN_FIELD) as [v|x] eqn:Eget; cbn in H;
      [|destruct x; discriminate].
    repeat split; try assumption. congruence.
  - intros (r & j & -> & E200 & Ej & Ein & Eget).
    apply Z.eqb_eq in E200. rewrite E200, Ej. cbn.
    rewrite Ein. cbn. rewrite Eget. reflexivity.
Qed.

(** X6. Unless [get_session_token] returns [(True, token)], [add_to_cart]
    does nothing beyond that call: it sends no cart POST, adds no event,
    and does not report success. *)
Theorem add_to_cart_without_token (product_id : string) (w : world) :
  (forall tok, fst (get_session_token w) <> Ok (TokPair true tok)) ->
  snd (add_to_cart product_id w) = snd (get_session_token w) /\
  fst (add_to_cart product_id w) <> Ok true.
Proof.
  intros Hno. pose proof (contained_get_session_token w) as Hc.
  unfold add_to_cart, try_except, mbind, M_bind.
  destruct (get_session_token w) as [[t|x|] w1]; cbn [fst snd] in *.
  - destruct t as [[] tok| |]; cbn; try (split; [reflexivity|discriminate]).
    now elim (Hno tok).
  - destruct x; try (split; [reflexivity|discriminate]). now elim Hc.
  - split; [reflexivity|discriminate].
Qed.

Lemma add_to_cart_without_token_witness :
  let w := start buyer
             [Response (mkResponse 200 "" (Some (JObj ∅)) ValueError)] in
  (forall tok, fst (get_session_token w) <> Ok (TokPair true tok)) /\
  snd (add_to_cart "AT-3080" w) = snd (get_session_token w) /\
  fst (add_to_cart "AT-3080" w) <> Ok true.
Proof.
  intros w.
  assert (H : forall tok, fst (get_session_token w) <> Ok (TokPair true tok))
    by (intros tok; vm_compute; discriminate).
  split; [exact H|].
  exact (add_to_cart_without_token "AT-3080" w H).
Defined.

(** X7. A cart POST answered with HTTP 200 does not always end in a
    boolean. When the body is not JSON, the exception of
    [response.json()] leaves [add_to_cart] unless its class is a
    [RequestException], in which case it is caught and the result is
    [False] (which of the two depends on the installed [requests]). A JSON
    object without the message field raises [KeyError] and a JSON value
    that is not an object raises [TypeError]; neither is caught. *)
Theorem add_to_cart_malformed_answer (product_id : string) (w : world)
    (rt r : response) (m : gmap string json) (tok : json) :
  env w (tick w) = Response rt ->
  status_code rt = 200%Z ->
  json_body rt = Some (JObj m) ->
  m !! TOKEN_FIELD = Some tok ->
  env w (S (tick w)) = Response r ->
  status_code r = 200%Z ->
  (json_body r = None ->
   json_error r <> RequestException ->
   fst (add_to_cart product_id w) = Raise (json_error r)) /\
  (json_body r = None ->
   json_error r = RequestException ->
   fst (add_to_cart product_id w) = Ok false) /\
  (forall mj : gmap string json,
      json_body r = Some (JObj mj) ->
      mj !! MESSAGE_FIELD = None ->
      fst (add_to_cart product_id w) = Raise KeyError) /\
  (forall j : json,
      json_body r = Some j ->
      (forall mj, j <> JObj mj) ->
      fst (add_to_cart product_id w) = Raise TypeError).
Proof.
  intros H H200 Hj Hm Hr Hr200.
  rewrite (add_to_cart_after_token product_id _ _ _ _ H H200 Hj Hm).
  rewrite Hr, Hr200. cbn.
  split; [|split; [|split]].
  - intros -> Hne. destruct (json_error r); congruence.
  - now intros -> ->.
  - intros mj -> Hmj. cbn. now rewrite Hmj.
  - intros j -> Hnot. destruct j; try reflexivity. now elim (Hnot m0).
Qed.

Lemma add_to_cart_malformed_answer_witness :
  let w := start buyer
             [Response token_200;
              Response (mkResponse 200 "" (Some (JObj ∅)) ValueError)] in
  fst (add_to_cart "AT-3080" w) = Raise KeyError.
Proof.
  intros w.
  apply (proj1 (proj2 (proj2
           (add_to_cart_malformed_answer "AT-3080" w token_200
              (mkResponse 200 "" (Some (JObj ∅)) ValueError)
              {[ "session_token" := JStr "tok" ]} (JStr "tok")
              eq_refl eq_refl eq_refl eq_refl eq_refl eq_refl))) ∅);
    reflexivity.
Defined.

(** ** Invariants of a worker *)

Section Keeps.

Variable I : NvidiaBuyer -> Prop.
Variable P : event -> Prop.

Lemma keeps_ret {A} (a : A) : keeps I P (mret a).
Proof. intros w Hw. split; [exact Hw|]. now exists []. Qed.

Lemma keeps_raise {A} (e : exn) : keeps I P (@raise A e).
Proof. intros w Hw. split; [exact Hw|]. now exists []. Qed.

Lemma keeps_out_of_fuel {A} : keeps I P (@out_of_fuel A).
Proof. intros w Hw. split; [exact Hw|]. now exists []. Qed.

Lemma keeps_bind {A B} (c : M A) (k : A -> M B) :
  keeps I P c -> (forall a, keeps I P (k a)) -> keeps I P (c ≫= k).
Proof.
  intros Hc Hk w Hw. unfold mbind, M_bind.
  destruct (Hc w Hw) as (HI & evs & Hevs & HP).
  destruct (c w) as [[a|e|] w']; cbn [snd] in *.
  - destruct (Hk a w' HI) as (HI' & evs' & Hevs' & HP').
    split; [exact HI'|]. exists (evs' ++ evs)%list.
    split; [now rewrite Hevs', Hevs, app_assoc | now apply Forall_app].
  - split; [exact HI|]. now exists evs.
  - split; [exact HI|]. now exists evs.
Qed.

(** After [b ← get_self], the invariant is known of [b]. *)
Lemma keeps_self {B} (k : NvidiaBuyer -> M B) :
  (forall b, I b -> keeps I P (k b)) -> keeps I P (get_self ≫= k).
Proof. intros Hk w Hw. exact (Hk (self w) Hw w Hw). Qed.

Lemma keeps_try {A} (body handler : M A) :
  keeps I P body -> keeps I P handler -> keeps I P (try_except body handler).
Proof.
  intros Hb Hh w Hw. unfold try_except.
  destruct (Hb w Hw) as (HI & evs & Hevs & HP).
  destruct (body w) as [[a|[]|] w']; cbn [snd] in *;
    try (split; [exact HI|]; now exists evs).
  destruct (Hh w' HI) as (HI' & evs' & Hevs' & HP').
  split; [exact HI'|]. exists (evs' ++ evs)%list.
  split; [now rewrite Hevs', Hevs, app_assoc | now apply Forall_app].
Qed.

Lemma keeps_modify_self f :
  (forall b, I b -> I (f b)) -> keeps I P (modify_self f).
Proof. intros Hf w Hw. split; [now apply Hf|]. now exists []. Qed.

Lemma keeps_emit e : P e -> keeps I P (emit e).
Proof.
  intros He w Hw. split; [exact Hw|]. exists [e].
  split; [reflexivity | now constructor].
Qed.

Lemma keeps_call_out e : P e -> keeps I P (call_out e).
Proof.
  intros He w Hw. unfold call_out.
  destruct (env w (tick w)); (split; [exact Hw|]; exists [e];
    split; [reflexivity | now constructor]).
Qed.

Lemma keeps_lift {A} (r : res A) : keeps I P (lift r).
Proof. destruct r; [apply keeps_ret | apply keeps_raise]. Qed.

Lemma keeps_response_json r : keeps I P (response_json r).
Proof.
  unfold response_json.
  destruct (json_body r); [apply keeps_ret | apply keeps_raise].
Qed.

Lemma keeps_unpack2 t : keeps I P (unpack2 t).
Proof. destruct t; [apply keeps_ret | apply keeps_raise ..]. Qed.

Lemma keeps_sleep seconds : P (Sleep seconds) -> keeps I P (sleep seconds).
Proof.
  intros HP. unfold sleep.
  destruct (seconds <? 0)%Z; [apply keeps_raise | now apply keeps_emit].
Qed.

(** What the invariant and the event predicate must allow for the stock
    poll and the loop around it. *)
Hypothesis I_attempt : forall n b, I b -> I (set_attempt n b).
Hypothesis P_log : forall l, P (Log l).
Hypothesis P_stock : forall l c p, P (Http (GetStock l c p)).
Hypothesis P_spin : forall n, P (Spin n).
Hypothesis P_sleep : forall n, P (Sleep n).

(** [updateApiStatus] is left to the instance: whether it may notify
    depends on the invariant. *)
Hypothesis keeps_updateApiStatus : forall s, keeps I P (updateApiStatus s).

(** The purchase branch is entered only by an enabled buyer; then the
    events of a purchase must be allowed. *)
Hypothesis purchase_allowed :
  forall b, I b -> enabled b = true ->
    (forall e, purchase_event e = true -> P e) /\
    (forall b', I b' -> I (set_enabled false b')).

Ltac keeps_step :=
  match goal with
  | |- keeps _ _ (mbind _ get_self) => apply keeps_self; intros ? ?
  | |- keeps _ _ (mbind _ _) => apply keeps_bind; [|intros ?]
  | |- keeps _ _ (try_except _ _) => apply keeps_try
  | |- keeps _ _ (if ?b then _ else _) => destruct b eqn:?
  | |- keeps _ _ (send_notification _) => unfold send_notification
  | |- keeps _ _ (session_send _) => unfold session_send
  | |- keeps _ _ (log _) => apply keeps_emit, P_log
  | |- keeps _ _ (mret _) => apply keeps_ret
  | |- keeps _ _ (lift _) => apply keeps_lift
  | |- keeps _ _ (response_json _) => apply keeps_response_json
  | |- keeps _ _ (unpack2 _) => apply keeps_unpack2
  | |- keeps _ _ out_of_fuel => apply keeps_out_of_fuel
  | |- keeps _ _ (updateApiStatus _) => apply keeps_updateApiStatus
  | |- keeps _ _ (modify_self (fun b => set_attempt _ b)) =>
      apply keeps_modify_self; intros ? ?; now apply I_attempt
  | |- keeps _ _ (call_out (Http (GetStock _ _ _))) =>
      apply keeps_call_out, P_stock
  | |- keeps _ _ (emit (Spin _)) => apply keeps_emit, P_spin
  | |- keeps _ _ (sleep _) => apply keeps_sleep, P_sleep
  end.

Lemma keeps_is_in_stock product_id : keeps I P (is_in_stock product_id).
Proof. unfold is_in_stock. repeat keeps_step. Qed.

Lemma keeps_poll_until_in_stock fuel product_id :
  keeps I P (poll_until_in_stock fuel product_id).
Proof.
  induction fuel as [|fuel IH]; cbn [poll_until_in_stock].
  - apply keeps_out_of_fuel.
  - apply keeps_bind; [apply keeps_is_in_stock|]. intros in_stock.
    destruct in_stock; repeat keeps_step. exact IH.
Qed.

(** With the purchase events allowed, the session token and the cart
    keep the invariant. *)
Lemma keeps_get_session_token :
  (forall e, purchase_event e = true -> P e) -> keeps I P get_session_token.
Proof.
  intros HP. unfold get_session_token. repeat keeps_step.
  all: apply keeps_call_out, HP; reflexivity.
Qed.

Lemma keeps_add_to_cart product_id :
  (forall e, purchase_event e = true -> P e) ->
  keeps I P (add_to_cart product_id).
Proof.
  intros HP. unfold add_to_cart. apply keeps_try.
  - apply keeps_bind; [now apply keeps_get_session_token|]. intros t.
    repeat keeps_step.
    + apply keeps_call_out, HP; reflexivity.
    + apply keeps_emit, HP; reflexivity.
  - repeat keeps_step.
Qed.

Lemma keeps_buy fuel product_id : keeps I P (buy fuel product_id).
Proof.
  induction fuel as [|fuel IH]; cbn [buy]; [apply keeps_out_of_fuel|].
  apply keeps_try.
  - apply keeps_self. intros b0 _.
    apply keeps_bind; [keeps_step|]. intros _.
    apply keeps_bind; [keeps_step|]. intros _.
    apply keeps_bind; [apply keeps_poll_until_in_stock|]. intros _.
    apply keeps_bind; [keeps_step|]. intros _.
    apply keeps_self. intros b Hb.
    destruct (enabled b) eqn:Hen; [|apply keeps_ret].
    destruct (purchase_allowed b Hb Hen) as [HP HI].
    apply keeps_bind; [now apply keeps_add_to_cart|]. intros cart_success.
    destruct cart_success.
    + apply keeps_bind; [keeps_step|]. intros _.
      apply keeps_bind; [now apply keeps_modify_self|]. intros _.
      apply keeps_bind; [apply keeps_emit, HP; reflexivity|]. intros _.
      unfold send_notification.
      apply keeps_bind; [apply keeps_call_out, HP; reflexivity|]. intros _.
      apply keeps_ret.
    + unfold send_notification.
      apply keeps_bind; [|intros _; exact IH].
      apply keeps_bind; [apply keeps_call_out, HP; reflexivity|]. intros _.
      apply keeps_ret.
  - repeat keeps_step. exact IH.
Qed.

End Keeps.

Lemma keeps_updateApiStatus_notifying (I : NvidiaBuyer -> Prop)
    (P : event -> Prop) :
  (forall s b, I b -> I (set_api_online s b)) ->
  P (Log LogApiBackUp) ->
  P (Notify ApiBackOnline) ->
  forall s, keeps I P (updateApiStatus s).
Proof.
  intros HI Hlog Hnote s. unfold updateApiStatus.
  apply keeps_self. intros b _.
  apply keeps_bind; [|intros _; apply keeps_modify_self, HI].
  destruct (API_STATUS_eqb (api_status b) OFFLINE
            && API_STATUS_eqb s ONLINE); [|apply keeps_ret].
  apply keeps_bind; [now apply keeps_emit|]. intros _.
  unfold send_notification.
  apply keeps_bind; [now apply keeps_call_out|]. intros _. apply keeps_ret.
Qed.

Lemma keeps_updateApiStatus_online (P : event -> Prop) :
  forall s, keeps (fun b => api_status b = ONLINE) P (updateApiStatus s).
Proof.
  intros s w Hw. rewrite (updateApiStatus_while_online s w Hw). cbn.
  split; [exact Hw|]. now exists [].
Qed.

(** X8. Once purchasing is disabled, a worker never attempts a purchase
    again: whatever the environment answers and however long it runs,
    [buy] sends no token or cart request, opens no browser, sends no
    purchase notification, and leaves purchasing disabled. *)
Theorem buy_disabled_never_purchases (fuel : nat) (product_id : string)
    (w : world) :
  enabled (self w) = false ->
  enabled (self (snd (buy fuel product_id w))) = false /\
  exists evs : list event,
    trace (snd (buy fuel product_id w)) = (evs ++ trace w)%list /\
    Forall (fun e => purchase_event e = false) evs.
Proof.
  apply (keeps_buy (fun b => enabled b = false)
                   (fun e => purchase_event e = false)).
  - now intros n b.
  - reflexivity.
  - reflexivity.
  - reflexivity.
  - reflexivity.
  - apply keeps_updateApiStatus_notifying; [now intros s b | reflexivity ..].
  - intros b Hb Hen. congruence.
Qed.

Lemma buy_disabled_never_purchases_witness :
  let w := start (set_enabled false buyer)
             [Response stock_miss; Response stock_hit; Response token_200] in
  enabled (self w) = false /\
  enabled (self (snd (buy 3 "AT-3080" w))) = false /\
  exists evs : list event,
    trace (snd (buy 3 "AT-3080" w)) = (evs ++ trace w)%list /\
    Forall (fun e => purchase_event e = false) evs.
Proof.
  intros w. split; [reflexivity|].
  apply (buy_disabled_never_purchases 3 "AT-3080" w). reflexivity.
Defined.

(** X9. A worker only ever assigns [enabled], [attempt] and [api_online]:
    the product ids, both locales, the family, the interval, the flags and
    [api_status] are after any run of [buy] what they were before. *)
Theorem buy_keeps_static (fuel : nat) (product_id : string) (w : world) :
  static (self (snd (buy fuel product_id w))) = static (self w).
Proof.
  refine (proj1 (keeps_buy (fun b => static b = static (self w))
                           (fun _ => True) _ _ _ _ _ _ _
                           fuel product_id w eq_refl)).
  - now intros n b.
  - easy.
  - easy.
  - easy.
  - easy.
  - apply keeps_updateApiStatus_notifying; [now intros s b | easy ..].
  - intros b Hb Hen. split; [easy | now intros b'].
Qed.

(** X10. As long as [api_status] is ONLINE, which is how [__init__] leaves
    it, no run of [buy] sends the back-online notification, and
    [api_status] is ONLINE afterwards. *)
Theorem buy_never_notifies_back_online (fuel : nat) (product_id : string)
    (w : world) :
  api_status (self w) = ONLINE ->
  api_status (self (snd (buy fuel product_id w))) = ONLINE /\
  exists evs : list event,
    trace (snd (buy fuel product_id w)) = (evs ++ trace w)%list /\
    Forall (fun e => e <> Notify ApiBackOnline) evs.
Proof.
  apply (keeps_buy (fun b => api_status b = ONLINE)
                   (fun e => e <> Notify ApiBackOnline)).
  - now intros n b.
  - discriminate.
  - discriminate.
  - discriminate.
  - discriminate.
  - apply keeps_updateApiStatus_online.
  - intros b Hb Hen. split; [|now intros b'].
    intros e He ->. discriminate.
Qed.

Lemma buy_never_notifies_back_online_witness :
  let w := start buyer
             [Fault; Response stock_hit; Response token_200;
              Response cart_200; delivered] in
  api_status (self w) = ONLINE /\
  api_status (self (snd (buy 3 "AT-3080" w))) = ONLINE /\
  exists evs : list event,
    trace (snd (buy 3 "AT-3080" w)) = (evs ++ trace w)%list /\
    Forall (fun e => e <> Notify ApiBackOnline) evs.
Proof.
  intros w. split; [reflexivity|].
  apply (buy_never_notifies_back_online 3 "AT-3080" w). reflexivity.
Defined.

(** X11. No [RequestException] leaves [buy]: a run ends normally, in an
    exception of another class, or not at all. *)
Theorem buy_contains_request_exceptions (fuel : nat) (product_id : string)
    (w : world) :
  fst (buy fuel product_id w) <> Raise RequestException /\
  (forall e w1,
      buy_try fuel product_id w = (Raise e, w1) ->
      e <> RequestException ->
      buy (S fuel) product_id w = (Raise e, w1)).
Proof.
  split; [apply contained_buy|].
  intros e w1 H He. rewrite buy_unfold. unfold try_except. rewrite H.
  now destruct e.
Qed.

(** ** The polling loop *)

Lemma is_in_stock_answer product_id w :
  is_in_stock product_id w
  = (Ok (negb (miss (env w (tick w)))),
     called (poll_events (self w) product_id (env w (tick w))) w).
Proof.
  destruct (env w (tick w)) as [r|] eqn:E.
  - rewrite (is_in_stock_response _ _ _ E). cbn [miss poll_events].
    now rewrite negb_involutive.
  - now rewrite (is_in_stock_fault _ _ E).
Qed.

Lemma poll_hit_step fuel product_id w :
  miss (env w (tick w)) = false ->
  poll_until_in_stock (S fuel) product_id w
  = (Ok tt, called (poll_events (self w) product_id (env w (tick w))) w).
Proof.
  intros H. cbn [poll_until_in_stock].
  rewrite (bind_ok _ _ _ _ _ (is_in_stock_answer product_id w)).
  now rewrite H.
Qed.



Lemma sleeps_app (a b : list event) :
  sleeps (a ++ b) = sleeps a + sleeps b.
Proof. unfold sleeps. now rewrite List.filter_app, length_app. Qed.

Lemma sleeps_poll_events b product_id answer :
  sleeps (poll_events b product_id answer) = 0.
Proof.
  destruct answer as [r|]; [|reflexivity].
  cbn [poll_events]. unfold stock_poll_events.
  now destruct (negb (status_code r =? 200)%Z).
Qed.







(** ** Whole cycles of a worker *)

Lemma checking_hit fuel product_id w :
  api_status (self w) = ONLINE ->
  miss (env w (tick w)) = false ->
  checking (S fuel) product_id w = (Ok tt, after_check product_id w).
Proof.
  intros Hon Hhit. unfold checking.
  rewrite (bind_ok get_self _ w (self w) w) by reflexivity.
  erewrite bind_ok by reflexivity.
  erewrite bind_ok by reflexivity.
  erewrite bind_ok by (apply poll_hit_step; exact Hhit).
  now rewrite updateApiStatus_while_online by exact Hon.
Qed.

Lemma buy_try_hit fuel product_id w :
  api_status (self w) = ONLINE ->
  miss (env w (tick w)) = false ->
  buy_try (S fuel) product_id w
  = reserving (S fuel) product_id (after_check product_id w).
Proof.
  intros Hon Hhit.
  now rewrite buy_try_phases, (bind_ok _ _ _ _ _ (checking_hit _ _ _ Hon Hhit)).
Qed.

Lemma add_to_cart_unpack_fails product_id w t w1 :
  get_session_token w = (Ok t, w1) ->
  t = TokNone \/ t = TokFalse ->
  add_to_cart product_id w = (Raise TypeError, w1).
Proof.
  intros H Ht. unfold add_to_cart, try_except.
  rewrite (bind_ok _ _ _ _ _ H). now destruct Ht as [-> | ->].
Qed.

Lemma get_session_token_granted w tok :
  grants_token (env w (tick w)) tok ->
  get_session_token w
  = (Ok (TokPair true tok), called [Http (GetToken (locale (self w)))] w).
Proof.
  intros (r & m & H & H200 & Hj & Hm).
  exact (get_session_token_ok w r m tok H H200 Hj Hm).
Qed.

Lemma add_to_cart_rejected product_id w tok r :
  grants_token (env w (tick w)) tok ->
  rejects_cart (env w (S (tick w))) r ->
  add_to_cart product_id w
  = (Ok false,
     after_post product_id tok
       [Log (LogCartFailed (status_code r)); Log (LogBody (text r))] w).
Proof.
  intros Htok [Hr Hne]. unfold add_to_cart. unfold try_except at 1.
  rewrite (bind_ok _ _ _ _ _ (get_session_token_granted _ _ Htok)).
  unfold after_post, called, unpack2. run_monad. cbn.
  rewrite Hr. apply Z.eqb_neq in Hne. now rewrite Hne.
Qed.

Lemma add_to_cart_accepted product_id w tok j :
  grants_token (env w (tick w)) tok ->
  accepts_cart (env w (S (tick w))) j ->
  add_to_cart product_id w
  = (Ok true, after_post product_id tok [PrintOut j] w).
Proof.
  intros Htok (r & msg & Hr & H200 & Hj & Hget & Hin).
  unfold add_to_cart. unfold try_except at 1.
  rewrite (bind_ok _ _ _ _ _ (get_session_token_granted _ _ Htok)).
  unfold after_post, called, unpack2. run_monad. cbn.
  rewrite Hr. apply Z.eqb_eq in H200. rewrite H200, Hj. cbn.
  rewrite Hget. cbn. now rewrite Hin.
Qed.

(** X14. When the product is in stock but the token request fails in
    transport or is answered with a status other than 200, the worker ends
    in a [TypeError] right after that request: it sends no cart POST and
    no notification, and it does not start over. *)
Theorem buy_dies_without_token (fuel : nat) (product_id : string)
    (w : world) :
  api_status (self w) = ONLINE ->
  enabled (self w) = true ->
  miss (env w (tick w)) = false ->
  env w (S (tick w)) = Fault \/
  (exists r, env w (S (tick w)) = Response r /\ status_code r <> 200%Z) ->
  exists (w' : world) (l : log_line),
    buy (S (S fuel)) product_id w = (Raise TypeError, w') /\
    tick w' = tick w + 2 /\
    trace w'
    = (Log l :: Http (GetToken (locale (self w)))
       :: trace (after_check product_id w)).
Proof.
  intros Hon Hen Hhit Htok.
  pose (w1 := after_check product_id w).
  assert (Hcart : exists w' l,
             add_to_cart product_id w1 = (Raise TypeError, w') /\
             tick w' = tick w + 2 /\
             trace w' = (Log l :: Http (GetToken (locale (self w)))
                         :: trace w1)).
  { destruct Htok as [Hf | (r & Hr & Hne)].
    - eexists. exists LogUnexpectedReply. split.
      + eapply add_to_cart_unpack_fails; [|now right].
        apply get_session_token_fault. exact Hf.
      + split; [cbn; lia | reflexivity].
    - eexists. exists (LogTokenStatus (status_code r)). split.
      + eapply add_to_cart_unpack_fails; [|now left].
        apply (get_session_token_other_status w1 r); assumption.
      + split; [cbn; lia | reflexivity]. }
  destruct Hcart as (w' & l & Hrun & Ht & Htr).
  exists w', l. split; [|now split].
  rewrite buy_unfold. unfold try_except.
  rewrite (buy_try_hit _ _ _ Hon Hhit). unfold reserving.
  rewrite (bind_ok get_self _ w1 (self w1) w1) by reflexivity.
  cbn [w1 after_check self enabled set_api_online]. rewrite Hen.
  fold w1. now rewrite (bind_raise _ _ _ _ _ Hrun).
Qed.

Lemma buy_dies_without_token_witness :
  let w := start buyer [Response stock_hit; Response token_503] in
  exists (w' : world) (l : log_line),
    buy 2 "AT-3080" w = (Raise TypeError, w') /\
    tick w' = tick w + 2 /\
    trace w'
    = (Log l :: Http (GetToken (locale (self w)))
       :: trace (after_check "AT-3080" w)).
Proof.
  intros w. apply (buy_dies_without_token 0 "AT-3080" w);
    try reflexivity.
  right. exists token_503. split; [reflexivity | discriminate].
Defined.

(** X15. The successful cycle: product in stock, token granted, cart POST
    accepted, notification delivered. The worker returns after exactly
    four outgoing calls, with purchasing disabled and the attempt count
    untouched; after the cart answer it logs, opens the browser once and
    sends the in-stock notification once. *)
Theorem buy_success (fuel : nat) (product_id : string) (w : world)
    (tok j : json) (rn : response) :
  api_status (self w) = ONLINE ->
  enabled (self w) = true ->
  miss (env w (tick w)) = false ->
  grants_token (env w (tick w + 1)) tok ->
  accepts_cart (env w (tick w + 2)) j ->
  env w (tick w + 3) = Response rn ->
  exists w' : world,
    buy (S (S fuel)) product_id w = (Ok tt, w') /\
    enabled (self w') = false /\
    attempt (self w') = attempt (self w) /\
    tick w' = tick w + 4 /\
    trace w'
    = (Notify (InStock product_id) :: OpenBrowser :: Log LogAddedToCart
       :: trace (after_post product_id tok [PrintOut j]
                   (after_check product_id w))).
Proof.
  intros Hon Hen Hhit Htok Hcart Hsent.
  pose (w1 := after_check product_id w).
  assert (Hadd : add_to_cart product_id w1
                 = (Ok true, after_post product_id tok [PrintOut j] w1)).
  { apply add_to_cart_accepted; cbn [w1 after_check env tick].
    - now rewrite <- Nat.add_1_r.
    - now replace (S (S (tick w))) with (tick w + 2) by lia. }
  eexists. split.
  - rewrite buy_unfold. unfold try_except.
    rewrite (buy_try_hit _ _ _ Hon Hhit). unfold reserving.
    rewrite (bind_ok get_self _ w1 (self w1) w1) by reflexivity.
    cbn [w1 after_check self enabled set_api_online]. rewrite Hen.
    fold w1. rewrite (bind_ok _ _ _ _ _ Hadd).
    unfold after_post, called. run_monad. cbn.
    replace (S (S (S (tick w)))) with (tick w + 3) by lia.
    rewrite Hsent. reflexivity.
  - cbn. repeat split. lia.
Qed.

Lemma buy_success_witness :
  let w := start buyer
             [Response stock_hit; Response token_200; Response cart_200;
              delivered] in
  exists w' : world,
    buy 2 "AT-3080" w = (Ok tt, w') /\
    enabled (self w') = false /\
    attempt (self w') = attempt (self w) /\
    tick w' = tick w + 4 /\
    trace w'
    = (Notify (InStock "AT-3080") :: OpenBrowser :: Log LogAddedToCart
       :: trace (after_post "AT-3080" (JStr "tok") [PrintOut added]
                   (after_check "AT-3080" w))).
Proof.
  intros w.
  apply (buy_success 0 "AT-3080" w (JStr "tok") added
           (mkResponse 200 "" None ValueError));
    try reflexivity.
  - exists token_200, {[ "session_token" := JStr "tok" ]}.
    repeat split; reflexivity.
  - exists cart_200, (JStr "Added successfully"). repeat split; reflexivity.
Defined.

Lemma sleeps_cons (e : event) (t : list event) :
  sleeps (e :: t)
  = (match e with Sleep _ => 1 | _ => 0 end) + sleeps t.
Proof. now destruct e. Qed.

Lemma cart_errors_cons (e : event) (t : list event) :
  cart_errors (e :: t)
  = (match e with Notify CartError => 1 | _ => 0 end) + cart_errors t.
Proof. destruct e as [| [] | | | | |]; reflexivity. Qed.

Lemma cart_errors_app (a b : list event) :
  cart_errors (a ++ b) = cart_errors a + cart_errors b.
Proof. unfold cart_errors. now rewrite List.filter_app, length_app. Qed.

Lemma cart_errors_poll_events b product_id answer :
  cart_errors (poll_events b product_id answer) = 0.
Proof.
  destruct answer as [r|]; [|reflexivity].
  cbn [poll_events]. unfold stock_poll_events.
  now destruct (negb (status_code r =? 200)%Z).
Qed.

(** One cycle that ends in a rejected cart POST hands over to the next. *)
Lemma buy_cart_rejected_step fuel product_id w tok r rn :
  api_status (self w) = ONLINE ->
  enabled (self w) = true ->
  miss (env w (tick w)) = false ->
  grants_token (env w (tick w + 1)) tok ->
  rejects_cart (env w (tick w + 2)) r ->
  env w (tick w + 3) = Response rn ->
  buy (S (S fuel)) product_id w
  = buy (S fuel) product_id
        (called [Notify CartError]
           (after_post product_id tok
              [Log (LogCartFailed (status_code r)); Log (LogBody (text r))]
              (after_check product_id w))).
Proof.
  intros Hon Hen Hhit Htok Hcart Hsent.
  pose (w1 := after_check product_id w).
  assert (Hadd : add_to_cart product_id w1
                 = (Ok false,
                    after_post product_id tok
                      [Log (LogCartFailed (status_code r));
                       Log (LogBody (text r))] w1)).
  { apply add_to_cart_rejected; cbn [w1 after_check env tick].
    - now rewrite <- Nat.add_1_r.
    - now replace (S (S (tick w))) with (tick w + 2) by lia. }
  assert (Htry : buy_try (S fuel) product_id w
                 = buy (S fuel) product_id
                       (called [Notify CartError]
                          (after_post product_id tok
                             [Log (LogCartFailed (status_code r));
                              Log (LogBody (text r))] w1))).
  { rewrite (buy_try_hit _ _ _ Hon Hhit). unfold reserving.
    rewrite (bind_ok get_self _ w1 (self w1) w1) by reflexivity.
    cbn [w1 after_check self enabled set_api_online]. rewrite Hen.
    fold w1. rewrite (bind_ok _ _ _ _ _ Hadd).
    erewrite bind_ok; [reflexivity|].
    unfold send_notification, call_out, after_post, called, mbind, M_bind.
    cbn [env tick w1 after_check].
    replace (S (S (S (tick w)))) with (tick w + 3) by lia.
    now rewrite Hsent. }
  rewrite buy_unfold, try_passed; rewrite Htry;
    [reflexivity | apply contained_buy].
Qed.

(** X16. Retry without backoff: while every cycle finds stock, gets a
    token and has its cart POST rejected, the worker never returns and
    never sleeps; whatever the fuel, it is used up, with one failure
    notification per completed cycle. *)
Theorem buy_hot_loop (fuel : nat) (product_id : string) (w : world) :
  api_status (self w) = ONLINE ->
  enabled (self w) = true ->
  cart_keeps_failing w ->
  fst (buy fuel product_id w) = OutOfFuel /\
  sleeps (trace (snd (buy fuel product_id w))) = sleeps (trace w) /\
  cart_errors (trace (snd (buy fuel product_id w)))
  = cart_errors (trace w) + pred fuel.
Proof.
  revert w. induction fuel as [|fuel IH]; intros w Hon Hen Hloop.
  - cbn. repeat split; lia.
  - destruct fuel as [|fuel].
    + assert (Hrun : buy 1 product_id w
                     = (OutOfFuel,
                        mkWorld (self w) (env w) (tick w)
                          (Log (LogBuyStart (api_status (self w)))
                           :: Log (LogStockCheckStart product_id
                                     (interval (self w)))
                           :: trace w))) by reflexivity.
      rewrite Hrun. cbn [fst snd trace].
      rewrite !sleeps_cons, !cart_errors_cons. cbn [pred].
      repeat split; lia.
    + destruct (Hloop 0) as (Hhit & [tok Htok] & [r Hcart] & [rn Hsent]).
      rewrite Nat.mul_0_r, !Nat.add_0_r in *.
      rewrite (buy_cart_rejected_step fuel product_id w tok r rn
                 Hon Hen Hhit Htok Hcart Hsent).
      match goal with
      | |- context [buy (S fuel) product_id ?w4] =>
          destruct (IH w4) as (Hf & Hs & Hc)
      end.
      * exact Hon.
      * exact Hen.
      * intros k. cbn [called after_post after_check env tick].
        replace (S (S (S (S (tick w)))) + 4 * k)
          with (tick w + 4 * S k) by lia.
        apply Hloop.
      * rewrite Hf, Hs, Hc.
        cbn [called after_post after_check trace app].
        rewrite !sleeps_cons, !cart_errors_cons, sleeps_app, cart_errors_app,
          sleeps_poll_events, cart_errors_poll_events,
          !sleeps_cons, !cart_errors_cons.
        cbn [pred]. repeat split; lia.
Qed.

Lemma buy_hot_loop_witness :
  let w := mkWorld buyer
             (fun n => match Nat.modulo n 4 with
                       | 0 => Response stock_hit
                       | 1 => Response token_200
                       | 2 => Response cart_503
                       | _ => delivered
                       end) 0 [] in
  fst (buy 5 "AT-3080" w) = OutOfFuel /\
  sleeps (trace (snd (buy 5 "AT-3080" w))) = sleeps (trace w) /\
  cart_errors (trace (snd (buy 5 "AT-3080" w))) = cart_errors (trace w) + 4.
Proof.
  intros w. apply (buy_hot_loop 5 "AT-3080" w); try reflexivity.
  intros k. cbn [w env tick Nat.add].
  replace (4 * k) with (k * 4) by lia.
  rewrite Nat.Div0.mod_mul.
  replace (k * 4 + 1) with (1 + k * 4) by lia.
  replace (k * 4 + 2) with (2 + k * 4) by lia.
  replace (k * 4 + 3) with (3 + k * 4) by lia.
  rewrite !Nat.Div0.mod_add. cbn [Nat.modulo Nat.divmod fst snd Nat.sub].
  split; [reflexivity|]. split; [|split].
  - exists (JStr "tok"), token_200, {[ "session_token" := JStr "tok" ]}.
    repeat split; reflexivity.
  - exists cart_503. split; [reflexivity | discriminate].
  - now eexists.
Defined.



(** ** API status, continued *)

(** X18. [updateApiStatus] notifies exactly when [api_status] is OFFLINE
    and the argument is ONLINE; in every other case it sends nothing and
    stores the argument in [api_online]. When it notifies, it logs first
    and stores the argument only if the notification returns: if that
    raises, the exception leaves [updateApiStatus] and [api_online] is not
    assigned. *)
Theorem updateApiStatus_effects (status : API_STATUS) (w : world) :
  (api_status (self w) = OFFLINE /\ status = ONLINE ->
   trace (snd (updateApiStatus status w))
   = Notify ApiBackOnline :: Log LogApiBackUp :: trace w /\
   tick (snd (updateApiStatus status w)) = S (tick w) /\
   (forall r, env w (tick w) = Response r ->
              fst (updateApiStatus status w) = Ok tt /\
              api_online (self (snd (updateApiStatus status w)))
              = Some status) /\
   (env w (tick w) = Fault ->
    fst (updateApiStatus status w) = Raise RequestException /\
    self (snd (updateApiStatus status w)) = self w)) /\
  (~ (api_status (self w) = OFFLINE /\ status = ONLINE) ->
   updateApiStatus status w
   = (Ok tt, mkWorld (set_api_online status (self w)) (env w) (tick w)
                     (trace w))).
Proof.
  unfold updateApiStatus. run_monad. split.
  - intros [-> ->]. cbn.
    destruct (env w (tick w)) as [r|]; cbn.
    + split; [reflexivity|]. split; [reflexivity|].
      split; [intros r' _; now split | discriminate].
    + split; [reflexivity|]. split; [reflexivity|].
      split; [discriminate | intros _; now split].
  - intros Hnot.
    destruct (api_status (self w)), status; cbn; try reflexivity.
    now elim Hnot.
Qed.

Lemma updateApiStatus_effects_witness :
  let w := mkWorld (mkBuyer [] "en_us" "en_us" "3080" true false 0 false 5
                            OFFLINE None "NVIDIA GEFORCE RTX 3080")
                   (answers [delivered]) 0 [] in
  trace (snd (updateApiStatus ONLINE w))
  = Notify ApiBackOnline :: Log LogApiBackUp :: trace w /\
  tick (snd (updateApiStatus ONLINE w)) = S (tick w).
Proof.
  intros w.
  destruct (proj1 (updateApiStatus_effects ONLINE w) (conj eq_refl eq_refl))
    as (Ht & Hk & _).
  now split.
Defined.

(** ** A negative interval *)


